(** * practica03: [Analizador] (src/procesador.py)

    A shallow embedding of the CSV loader and of the five grouped
    reductions of [Analizador], with the properties of its specification.

    - Python floats are IEEE-754 binary64 numbers: Rocq's primitive floats,
      with the same operations and comparisons.
    - A Python [dict] is an association list in insertion order (Python
      dicts iterate in insertion order, and [max] depends on it).
    - A statement that may raise returns in the monad [Exc]; [try]/[except]
      is [try_except].
    - The builtins [float()], [str.upper()] and [str()] of a float are not
      code of the repository: the program is parameterised by them
      ([Builtins]), and every general theorem holds for any of them.  An
      ASCII instance ([ascii_builtins]) runs the worked examples. *)

From Stdlib Require Import List String Ascii Bool ZArith Lia Floats.
Import ListNotations.

Local Open Scope string_scope.
Local Open Scope list_scope.

(** ** Python floats *)

Module PyFloat.

Local Open Scope float_scope.

(** [max(a, b)] of two floats: Python keeps the first argument unless
    the second is strictly greater (so [max(0.0, nan)] is [0.0]). *)
Definition py_max (a b : float) : float :=
  if a <? b then b else a.

(** [bool(x)] of a float: [x != 0.0]. *)
Definition truthy (x : float) : bool := negb (x =? 0).

(** [a >= 0.0]. *)
Definition no_negativo (a : float) : Prop := (0 <=? a) = true.

(** The floats a cleaned field can hold, read in the specification
    format: a zero, plus infinity or a positive finite number. *)
Definition sf_no_negativo (x : spec_float) : bool :=
  match x with
  | S754_zero _ => true
  | S754_infinity s => negb s
  | S754_nan => false
  | S754_finite s _ _ => negb s
  end.

End PyFloat.

(** ** Exceptions *)

(** The exception classes the program can meet.  All of them derive from
    [Exception], the class [leer_csv] catches. *)
Inductive excepcion : Type :=
| AttributeError | KeyError | TypeError | ValueError | ZeroDivisionError
| OSError | UnicodeDecodeError | CsvError.

(** [isinstance(e, clase)]: among these classes only [UnicodeDecodeError]
    has a parent other than [Exception], namely [ValueError]. *)
Definition es_instancia (e clase : excepcion) : bool :=
  match e, clase with
  | AttributeError, AttributeError | KeyError, KeyError
  | TypeError, TypeError | ValueError, ValueError
  | ZeroDivisionError, ZeroDivisionError | OSError, OSError
  | UnicodeDecodeError, UnicodeDecodeError | CsvError, CsvError
  | UnicodeDecodeError, ValueError => true
  | _, _ => false
  end.

(** The outcome of a statement: a value, or a raised exception. *)
Inductive Exc (A : Type) : Type :=
| Ok (a : A)
| Raise (e : excepcion).
Arguments Ok {A} a.
Arguments Raise {A} e.

Definition bind {A B : Type} (m : Exc A) (f : A -> Exc B) : Exc B :=
  match m with
  | Ok a => f a
  | Raise e => Raise e
  end.

Declare Scope exc_scope.
Delimit Scope exc_scope with exc.
Notation "x <- m ;; k" := (bind m (fun x => k))
  (at level 61, m at next level, right associativity) : exc_scope.
Notation "' p <- m ;; k" := (bind m (fun p => k))
  (at level 61, p pattern, m at next level, right associativity) : exc_scope.
Local Open Scope exc_scope.

(** [try: cuerpo except (clases): manejador]: an exception of one of the
    listed classes runs the handler, any other one propagates. *)
Definition try_except {A : Type} (cuerpo : Exc A)
    (clases : excepcion -> bool) (manejador : excepcion -> Exc A) : Exc A :=
  match cuerpo with
  | Ok a => Ok a
  | Raise e => if clases e then manejador e else Raise e
  end.

(** [for x in l: s = cuerpo(s, x)], stopping at the first exception. *)
Fixpoint for_each {A S : Type} (l : list A) (s : S)
    (cuerpo : S -> A -> Exc S) : Exc S :=
  match l with
  | [] => Ok s
  | x :: l' => s' <- cuerpo s x ;; for_each l' s' cuerpo
  end.

(** ** Dictionaries *)

Section Dict.
Context {K V : Type} (eqb : K -> K -> bool).

(** Entries in insertion order; [eqb] is the equality of keys. *)
Definition dict : Type := list (K * V).

(** [d.get(k)], [None] being an absent key. *)
Fixpoint dict_get (d : dict) (k : K) : option V :=
  match d with
  | [] => None
  | (k', v) :: d' => if eqb k' k then Some v else dict_get d' k
  end.

(** [d[k] = v]: an existing key keeps its place, a new one goes last. *)
Fixpoint dict_set (d : dict) (k : K) (v : V) : dict :=
  match d with
  | [] => [(k, v)]
  | (k', v') :: d' =>
      if eqb k' k then (k', v) :: d' else (k', v') :: dict_set d' k v
  end.

(** [d.get(k, defecto)]. *)
Definition dict_get_or (d : dict) (k : K) (defecto : V) : V :=
  match dict_get d k with
  | Some v => v
  | None => defecto
  end.

(** [d[k]] on a plain dict. *)
Definition dict_item (d : dict) (k : K) : Exc V :=
  match dict_get d k with
  | Some v => Ok v
  | None => Raise KeyError
  end.

(** Iterating a dict yields its keys in insertion order. *)
Definition dict_keys (d : dict) : list K := map fst d.
End Dict.

(** ** Values *)

(** The Python values a row holds: [None], a text, or a float. *)
Inductive valor : Type :=
| VNone
| VStr (s : string)
| VNum (x : float).

(** [a == b].  (A dict compares keys by identity before equality; the two
    differ on NaN floats only, and no key of this program is a float.) *)
Definition valor_eqb (a b : valor) : bool :=
  match a, b with
  | VNone, VNone => true
  | VStr s, VStr t => String.eqb s t
  | VNum x, VNum y => PrimFloat.eqb x y
  | _, _ => false
  end.

(** The truth value of [if v:]. *)
Definition truthy (v : valor) : bool :=
  match v with
  | VNone => false
  | VStr s => negb (String.eqb s "")
  | VNum x => PyFloat.truthy x
  end.

(** A row of [csv.DictReader] as the reader yields it: each column name
    with its text, or [None] when the line is shorter than the header.
    (The entry the reader adds under the key [None] for a line longer than
    the header is never read by the program and is left out.) *)
Definition fila_cruda : Type := dict (K := string) (V := option string).

(** A row as the program holds it. *)
Definition registro : Type := dict (K := string) (V := valor).

Definition valor_de_texto (t : option string) : valor :=
  match t with
  | Some s => VStr s
  | None => VNone
  end.

Definition fila_de_lector (cruda : fila_cruda) : registro :=
  map (fun kv => (fst kv, valor_de_texto (snd kv))) cruda.

(** [s.replace(',', '.')] *)
Fixpoint replace_coma_punto (s : string) : string :=
  match s with
  | EmptyString => EmptyString
  | String c s' =>
      String (if Ascii.eqb c "," then "."%char else c) (replace_coma_punto s')
  end.

(** ** The builtins the program calls *)

Record Builtins : Type := {
  (** [float(s)] of a text: [None] is [ValueError], the only exception
      [float] raises on a text. *)
  py_float : string -> option float;
  (** [s.upper()] *)
  py_upper : string -> string;
  (** [str(x)] of a float *)
  py_repr : float -> string
}.

(** ** What the reader delivers *)

(** The rows [csv.DictReader] yields while the file is read: the iteration
    ends, yields one more row, or fails ([open] failing, an undecodable
    byte, a line the csv module rejects). *)
Inductive lectura : Type :=
| Fin
| Fila (cruda : fila_cruda) (resto : lectura)
| Falla (e : excepcion).

(** What [ruta_csv] and [separador] resolve to when the file is loaded. *)
Inductive archivo : Type :=
| NoExiste
| Existe (lector : lectura).

(** The lines [leer_csv] prints. *)
Inductive aviso : Type :=
| Advertencia_no_encontrado
| Error_lectura (e : excepcion).

(** ** The class [Analizador] *)

Definition CAMPOS_NUMERICOS_CLAVE : list string :=
  ["TOTAL_VENTAS"; "EXPORTACIONES"; "IMPORTACIONES"; "VENTAS_NETAS_TARIFA_0"].

Record Analizador : Type := { datos : list registro }.

Section Programa.
Variable B : Builtins.

Local Open Scope float_scope.

(** [str(v)] *)
Definition py_str (v : valor) : string :=
  match v with
  | VNone => "None"%string
  | VStr s => s
  | VNum x => py_repr B x
  end.

(** [float(s)] *)
Definition float_de (s : string) : Exc float :=
  match py_float B s with
  | Some x => Ok x
  | None => Raise ValueError
  end.

(** [v.upper()]: only a text has the method. *)
Definition upper (v : valor) : Exc valor :=
  match v with
  | VStr s => Ok (VStr (py_upper B s))
  | _ => Raise AttributeError
  end.

Definition _limpiar_valor_numerico (valor : valor) : Exc float :=
  match valor with
  | VNone => Ok 0
  | _ =>
      try_except
        (let valor := replace_coma_punto (py_str valor) in
         num <- float_de valor ;;
         Ok (PyFloat.py_max 0 num))
        (fun e => es_instancia e ValueError || es_instancia e TypeError)
        (fun _ => Ok 0)
  end.

(** The body of [for fila in lector]. *)
Definition limpiar_fila (fila : registro) : Exc registro :=
  provincia <- upper (dict_get_or String.eqb fila "PROVINCIA" (VStr "DESCONOCIDA")) ;;
  let fila := dict_set String.eqb fila "PROVINCIA" provincia in
  fila <- for_each CAMPOS_NUMERICOS_CLAVE fila (fun fila campo =>
    valor_limpio <- _limpiar_valor_numerico
                      (dict_get_or String.eqb fila campo VNone) ;;
    Ok (dict_set String.eqb fila campo (VNum valor_limpio))) ;;
  Ok fila.

Fixpoint leer_filas (lector : lectura) (datos_limpios : list registro)
    : Exc (list registro) :=
  match lector with
  | Fin => Ok datos_limpios
  | Falla e => Raise e
  | Fila cruda resto =>
      fila <- limpiar_fila (fila_de_lector cruda) ;;
      leer_filas resto (datos_limpios ++ [fila])
  end.

(** [leer_csv]: what it prints, and its outcome. *)
Definition leer_csv (ruta_csv : archivo) : list aviso * Exc (list registro) :=
  match ruta_csv with
  | NoExiste => ([Advertencia_no_encontrado], Ok [])
  | Existe lector =>
      match leer_filas lector [] with
      | Ok datos_limpios => ([], Ok datos_limpios)
      | Raise e => ([Error_lectura e], Ok [])
      end
  end.

Definition __init__ (ruta_csv : archivo) : list aviso * Exc Analizador :=
  let '(avisos, r) := leer_csv ruta_csv in
  (avisos, datos <- r ;; Ok {| datos := datos |}).

(** *** Grouped sums *)

(** A [defaultdict(float)], keyed by the values of a column. *)
Definition acumulador : Type := dict (K := valor) (V := float).

(** [d[k]] on a [defaultdict(float)]: a missing key is first set to
    [0.0].  The value read and the dict after the access. *)
Definition defaultdict_item (d : acumulador) (k : valor) : float * acumulador :=
  match dict_get valor_eqb d k with
  | Some x => (x, d)
  | None => (0, dict_set valor_eqb d k 0)
  end.

(** [a + v], [a] a float. *)
Definition sumar (a : float) (v : valor) : Exc float :=
  match v with
  | VNum x => Ok (a + x)
  | _ => Raise TypeError
  end.

(** [d[k] += v] *)
Definition sumar_en (d : acumulador) (k v : valor) : Exc acumulador :=
  let '(actual, d) := defaultdict_item d k in
  nuevo <- sumar actual v ;;
  Ok (dict_set valor_eqb d k nuevo).

Definition ventas_totales_por_provincia (self : Analizador) : Exc acumulador :=
  for_each (datos self) [] (fun totales fila =>
    provincia <- dict_item String.eqb fila "PROVINCIA" ;;
    total_venta <- dict_item String.eqb fila "TOTAL_VENTAS" ;;
    sumar_en totales provincia total_venta).

Definition ventas_por_provincia (self : Analizador) (nombre : string) : Exc float :=
  let nombre_normalizado := py_upper B nombre in
  totales <- ventas_totales_por_provincia self ;;
  Ok (dict_get_or valor_eqb totales (VStr nombre_normalizado) 0).

Definition exportaciones_totales_por_mes (self : Analizador) : Exc acumulador :=
  for_each (datos self) [] (fun exportaciones_por_mes fila =>
    let mes := dict_get_or String.eqb fila "MES" VNone in
    let exportaciones := dict_get_or String.eqb fila "EXPORTACIONES" (VNum 0) in
    if truthy mes then sumar_en exportaciones_por_mes mes exportaciones
    else Ok exportaciones_por_mes).

(** [a > b] of two results of [d.get]: [None] is not ordered. *)
Definition py_gt (a b : option float) : Exc bool :=
  match a, b with
  | Some x, Some y => Ok (y <? x)
  | _, _ => Raise TypeError
  end.

(** The loop of [max(iterable, key=key)]: a later item replaces the
    current one only when its key is strictly greater. *)
Fixpoint max_bucle (key : valor -> option float) (resto : list valor)
    (maxitem : valor) (maxval : option float) : Exc valor :=
  match resto with
  | [] => Ok maxitem
  | item :: resto =>
      let val := key item in
      mayor <- py_gt val maxval ;;
      if mayor then max_bucle key resto item val
      else max_bucle key resto maxitem maxval
  end.

Definition py_max_key (l : list valor) (key : valor -> option float) : Exc valor :=
  match l with
  | [] => Raise ValueError
  | item :: resto => max_bucle key resto item (key item)
  end.

Definition provincia_con_mas_importaciones (self : Analizador)
    : Exc (valor * float) :=
  importaciones_por_provincia <-
    for_each (datos self) [] (fun importaciones_por_provincia fila =>
      let provincia := dict_get_or String.eqb fila "PROVINCIA" VNone in
      let importaciones := dict_get_or String.eqb fila "IMPORTACIONES" (VNum 0) in
      if truthy provincia
      then sumar_en importaciones_por_provincia provincia importaciones
      else Ok importaciones_por_provincia) ;;
  match importaciones_por_provincia with
  | [] => Ok (VNone, 0)
  | _ =>
      provincia_max <- py_max_key (dict_keys importaciones_por_provincia)
                         (dict_get valor_eqb importaciones_por_provincia) ;;
      let total_max := fst (defaultdict_item importaciones_por_provincia provincia_max) in
      Ok (provincia_max, total_max)
  end.

(** [a / b] of two floats. *)
Definition py_div (a b : float) : Exc float :=
  if b =? 0 then Raise ZeroDivisionError else Ok (a / b).

(** In the second loop [ventas_cero_por_provincia[provincia]] reads a
    [defaultdict]; a key it would add holds [0.0], the value read, and
    the dict is not used afterwards, so the dict is not threaded. *)
Definition porcentaje_ventas_tarifa_cero (self : Analizador) : Exc acumulador :=
  '(ventas_cero_por_provincia, ventas_totales_por_provincia) <-
    for_each (datos self) ([], []) (fun '(ventas_cero, ventas_totales) fila =>
      let provincia := dict_get_or String.eqb fila "PROVINCIA" VNone in
      let vta_cero := dict_get_or String.eqb fila "VENTAS_NETAS_TARIFA_0" (VNum 0) in
      let vta_total := dict_get_or String.eqb fila "TOTAL_VENTAS" (VNum 0) in
      if truthy provincia then
        ventas_cero <- sumar_en ventas_cero provincia vta_cero ;;
        ventas_totales <- sumar_en ventas_totales provincia vta_total ;;
        Ok (ventas_cero, ventas_totales)
      else Ok (ventas_cero, ventas_totales)) ;;
  for_each ventas_totales_por_provincia []
    (fun porcentajes '(provincia, total_ventas) =>
      let ventas_cero := fst (defaultdict_item ventas_cero_por_provincia provincia) in
      if 0 <? total_ventas then
        cociente <- py_div ventas_cero total_ventas ;;
        let porcentaje := cociente * 100 in
        Ok (dict_set valor_eqb porcentajes provincia porcentaje)
      else Ok (dict_set valor_eqb porcentajes provincia 0)).

End Programa.

(** ** The builtins on ASCII text *)

(** [float()] and [str.upper()] as Python defines them, on texts of ASCII
    characters; the worked examples of the specification run on them. *)
Module AsciiBuiltins.

Definition es_digito (c : ascii) : bool :=
  let n := nat_of_ascii c in (48 <=? n)%nat && (n <=? 57)%nat.

(** The characters [float()] strips at both ends of an ASCII text: the
    blank and the controls from tab to carriage return. *)
Definition es_espacio (c : ascii) : bool :=
  let n := nat_of_ascii c in
  ((9 <=? n)%nat && (n <=? 13)%nat) || (n =? 32)%nat.

Definition minuscula (c : ascii) : ascii :=
  let n := nat_of_ascii c in
  if (65 <=? n)%nat && (n <=? 90)%nat then ascii_of_nat (n + 32) else c.

Definition mayuscula (c : ascii) : ascii :=
  let n := nat_of_ascii c in
  if (97 <=? n)%nat && (n <=? 122)%nat then ascii_of_nat (n - 32) else c.

Fixpoint upper (s : string) : string :=
  match s with
  | EmptyString => EmptyString
  | String c s' => String (mayuscula c) (upper s')
  end.

Fixpoint quitar_espacios (l : list ascii) : list ascii :=
  match l with
  | c :: l' => if es_espacio c then quitar_espacios l' else l
  | [] => []
  end.

Definition strip (l : list ascii) : list ascii :=
  rev (quitar_espacios (rev (quitar_espacios l))).

(** [digit (["_"] digit)*] after its first digit: the digits read and
    what follows them. *)
Fixpoint digitos_resto (l : list ascii) : list ascii * list ascii :=
  match l with
  | [] => ([], [])
  | c :: r =>
      if es_digito c then
        let '(ds, r') := digitos_resto r in (c :: ds, r')
      else if Ascii.eqb c "_" then
        match r with
        | d :: r2 =>
            if es_digito d then
              let '(ds, r') := digitos_resto r2 in (d :: ds, r')
            else ([], l)
        | [] => ([], l)
        end
      else ([], l)
  end.

(** A [digitpart], empty when the text does not start with a digit. *)
Definition digitpart (l : list ascii) : list ascii * list ascii :=
  match l with
  | c :: r =>
      if es_digito c then
        let '(ds, r') := digitos_resto r in (c :: ds, r')
      else ([], l)
  | [] => ([], [])
  end.

Definition valor_digitos (ds : list ascii) : Z :=
  fold_left (fun n c => (10 * n + (Z.of_nat (nat_of_ascii c) - 48))%Z) ds 0%Z.

(** An optional sign: [true] for ["-"]. *)
Definition signo (l : list ascii) : bool * list ascii :=
  match l with
  | "-"%char :: r => (true, r)
  | "+"%char :: r => (false, r)
  | _ => (false, l)
  end.

(** [exponent ::= ("e" | "E") [sign] digitpart], up to the end of the
    text; no exponent is the exponent [0]. *)
Definition exponente (l : list ascii) : option Z :=
  match l with
  | [] => Some 0%Z
  | c :: r =>
      if Ascii.eqb (minuscula c) "e" then
        let '(neg, r1) := signo r in
        match digitpart r1 with
        | ((_ :: _) as ds, []) =>
            Some (if neg then (- valor_digitos ds)%Z else valor_digitos ds)
        | _ => None
        end
      else None
  end.

(** [floatnumber ::= ([digitpart] "." digitpart | digitpart ["."]) [exponent]]:
    the decimal digits [m] and the power of ten [e] of [m * 10^e]. *)
Definition floatnumber (l : list ascii) : option (Z * Z) :=
  let '(ent, r1) := digitpart l in
  let '(frac, r2) :=
    match r1 with
    | "."%char :: r => digitpart r
    | _ => ([], r1)
    end in
  match ent ++ frac with
  | [] => None
  | ds =>
      match exponente r2 with
      | Some e => Some (valor_digitos ds, (e - Z.of_nat (List.length frac))%Z)
      | None => None
      end
  end.

(** The binary64 number nearest to [(-1)^s * m * 10^e], ties to even. *)
Definition redondear (s : bool) (m e : Z) : spec_float :=
  match m, e with
  | Zpos p, Zneg d =>
      let '(q, e', l) :=
        SFdiv_core_binary prec emax (Zpos p) 0 (Zpos (10 ^ d)) 0 in
      binary_round_aux prec emax s q e' l
  | Zpos p, _ =>
      match (m * 10 ^ e)%Z with
      | Zpos n => binary_round prec emax s n 0
      | _ => S754_zero s
      end
  | _, _ => S754_zero s
  end.

Definition float (texto : string) : option float :=
  let '(s, l) := signo (strip (list_ascii_of_string texto)) in
  let nombre := string_of_list_ascii (map minuscula l) in
  if String.eqb nombre "inf" || String.eqb nombre "infinity" then
    Some (SF2Prim (S754_infinity s))
  else if String.eqb nombre "nan" then Some nan
  else
    match floatnumber l with
    | Some (m, e) => Some (SF2Prim (redondear s m e))
    | None => None
    end.

End AsciiBuiltins.

Definition ascii_builtins (repr : float -> string) : Builtins :=
  {| py_float := AsciiBuiltins.float;
     py_upper := AsciiBuiltins.upper;
     py_repr := repr |}.

(** ** The vocabulary of the specification *)

(** The text a row holds in a column ([""] when it holds none) and the
    number it holds in a column ([0.0] when it holds none). *)
Definition texto_de (fila : registro) (columna : string) : string :=
  match dict_get String.eqb fila columna with
  | Some (VStr s) => s
  | _ => ""
  end.

Definition numero_de (fila : registro) (columna : string) : float :=
  match dict_get String.eqb fila columna with
  | Some (VNum x) => x
  | _ => 0%float
  end.

(** The records of a group: those whose [clave] column holds [k]. *)
Definition grupo (clave : string) (datos : list registro) (k : string)
    : list registro :=
  filter (fun fila => String.eqb (texto_de fila clave) k) datos.

(** The sum of the column [campo] over the group of [k], added in input
    order from [0.0] (float addition is not associative). *)
Definition suma_por (clave campo : string) (datos : list registro)
    (k : string) : float :=
  fold_left PrimFloat.add (map (fun fila => numero_de fila campo) (grupo clave datos k))
    0%float.

(** Some record holds [k] in its [clave] column. *)
Definition hay (clave : string) (datos : list registro) (k : string) : bool :=
  existsb (fun fila => String.eqb (texto_de fila clave) k) datos.

(** The cleaning function in the words of the specification. *)
Definition limpiar_segun_spec (B : Builtins) (v : valor) : float :=
  match v with
  | VNone => 0%float
  | _ =>
      match py_float B (replace_coma_punto (py_str B v)) with
      | None => 0%float
      | Some num => PyFloat.py_max 0 num
      end
  end.

(** The rows a reader yields when nothing fails while they are read. *)
Definition lectura_de (filas : list fila_cruda) : lectura :=
  fold_right Fila Fin filas.

(** The reading breaks off with an exception of its own. *)
Fixpoint termina_en_falla (lector : lectura) : bool :=
  match lector with
  | Fin => false
  | Fila _ resto => termina_en_falla resto
  | Falla _ => true
  end.

(** ** The data of the tests *)

(** [MOCK_DATA] of test/test_analizador.py, as [csv.DictReader] reads the
    file the test writes. *)
Definition MOCK_DATA : list fila_cruda :=
  [ [("PROVINCIA", Some "PICHINCHA"); ("TOTAL_VENTAS", Some "1000.00");
     ("EXPORTACIONES", Some "500.00"); ("IMPORTACIONES", Some "100.00");
     ("MES", Some "01")];
    [("PROVINCIA", Some "GUAYAS"); ("TOTAL_VENTAS", Some "2000.00");
     ("EXPORTACIONES", Some "1000.00"); ("IMPORTACIONES", Some "500.00");
     ("MES", Some "02")];
    [("PROVINCIA", Some "PICHINCHA"); ("TOTAL_VENTAS", Some "500.00");
     ("EXPORTACIONES", Some "200.00"); ("IMPORTACIONES", Some "50.00");
     ("MES", Some "01")];
    [("PROVINCIA", Some "GUAYAS"); ("TOTAL_VENTAS", Some "100.00");
     ("EXPORTACIONES", Some "-10.00"); ("IMPORTACIONES", Some "800.00");
     ("MES", Some "02")];
    [("PROVINCIA", Some "AZUAY"); ("TOTAL_VENTAS", Some "3000.00");
     ("EXPORTACIONES", Some "0.00"); ("IMPORTACIONES", Some "1000.00");
     ("MES", Some "03")];
    [("PROVINCIA", Some "IMBABURA"); ("TOTAL_VENTAS", Some "NO_NUM");
     ("EXPORTACIONES", Some "0.00"); ("IMPORTACIONES", Some "0.00");
     ("MES", Some "04")] ].

Definition MOCK_FILE : archivo := Existe (lectura_de MOCK_DATA).

(** The four rows of the exports example of the specification. *)
Definition MOCK_EXPORTACIONES : list fila_cruda := firstn 4 MOCK_DATA.

(** A file whose first line has an empty region, with the largest
    imports of the file. *)
Definition DATOS_REGION_VACIA : list fila_cruda :=
  [ [("PROVINCIA", Some ""); ("TOTAL_VENTAS", Some "100.00");
     ("IMPORTACIONES", Some "900.00"); ("VENTAS_NETAS_TARIFA_0", Some "50.00")];
    [("PROVINCIA", Some "azuay"); ("TOTAL_VENTAS", Some "300.00");
     ("IMPORTACIONES", Some "10.00"); ("VENTAS_NETAS_TARIFA_0", Some "75,0")] ].

(** Two regions with the same imports, and a third one below them; and
    the same lines with the two regions in the other order. *)
Definition DATOS_EMPATE : list fila_cruda :=
  [ [("PROVINCIA", Some "LOJA"); ("IMPORTACIONES", Some "100.00")];
    [("PROVINCIA", Some "GUAYAS"); ("IMPORTACIONES", Some "250.00")];
    [("PROVINCIA", Some "AZUAY"); ("IMPORTACIONES", Some "500.00")];
    [("PROVINCIA", Some "GUAYAS"); ("IMPORTACIONES", Some "250.00")] ].

Definition DATOS_EMPATE_INVERSO : list fila_cruda :=
  [ [("PROVINCIA", Some "LOJA"); ("IMPORTACIONES", Some "100.00")];
    [("PROVINCIA", Some "AZUAY"); ("IMPORTACIONES", Some "500.00")];
    [("PROVINCIA", Some "GUAYAS"); ("IMPORTACIONES", Some "250.00")];
    [("PROVINCIA", Some "GUAYAS"); ("IMPORTACIONES", Some "250.00")] ].

(** A file without a region column, and a line that stops before the
    region column of its header. *)
Definition DATOS_SIN_REGION : list fila_cruda :=
  [ [("TOTAL_VENTAS", Some "12,5"); ("MES", Some "01")];
    [("TOTAL_VENTAS", Some "-3"); ("MES", Some "")] ].

Definition FILA_CORTA : fila_cruda :=
  [("TOTAL_VENTAS", Some "7.00"); ("PROVINCIA", None)].

(** A line that stops before the total of its header. *)
Definition FILA_SIN_TOTAL : fila_cruda :=
  [("PROVINCIA", Some "LOJA"); ("TOTAL_VENTAS", None)].

(** ** Predicates of the proofs *)

(** A key the equality of keys identifies: every text is one, a NaN float
    is not. *)
Definition clave_legal {K : Type} (eqb : K -> K -> bool) (k : K) : Prop :=
  forall a, eqb a k = true <-> a = k.

(** The row [limpiar_fila] leaves once the region is upper-cased: the
    region and the four cleaned fields are set, in this order. *)
Definition fila_limpia (B : Builtins) (fila : registro) (provincia : valor)
    : registro :=
  fold_left
    (fun f campo =>
       dict_set String.eqb f campo
         (VNum (limpiar_segun_spec B (dict_get_or String.eqb fila campo VNone))))
    CAMPOS_NUMERICOS_CLAVE
    (dict_set String.eqb fila "PROVINCIA" provincia).

(** What holds of every loaded record: the region is an upper-cased text,
    the four designated fields are floats that are not negative, and no
    other column holds a float. *)
Definition limpio (B : Builtins) (fila : registro) : Prop :=
  (exists s, dict_get String.eqb fila "PROVINCIA" = Some (VStr (py_upper B s))) /\
  (forall campo, In campo CAMPOS_NUMERICOS_CLAVE ->
     exists x, dict_get String.eqb fila campo = Some (VNum x) /\
               PyFloat.no_negativo x) /\
  (forall k x, dict_get String.eqb fila k = Some (VNum x) ->
     In k CAMPOS_NUMERICOS_CLAVE).

(** [d[k] += x] when [k] is a text and [x] a float. *)
Definition acumular (d : acumulador) (k : string) (x : float) : acumulador :=
  dict_set valor_eqb (snd (defaultdict_item d (VStr k))) (VStr k)
    (fst (defaultdict_item d (VStr k)) + x)%float.

(** The dict a grouped sum builds from the records it does not skip. *)
Definition agrupado (clave campo : string) (filas : list registro)
    (d : acumulador) : acumulador :=
  fold_left (fun d fila => acumular d (texto_de fila clave) (numero_de fila campo))
    filas d.

(** The records a guarded loop ([if provincia:], [if mes:]) sums. *)
Definition con_clave (clave : string) (datos : list registro) : list registro :=
  filter (fun fila => negb (String.eqb (texto_de fila clave) "")) datos.

(** The percentage the second loop of [porcentaje_ventas_tarifa_cero]
    stores for a region whose total is [total_ventas]. *)
Definition porcentaje_de (ventas_cero : acumulador) (provincia : valor)
    (total_ventas : float) : float :=
  if (0 <? total_ventas)%float
  then (fst (defaultdict_item ventas_cero provincia) / total_ventas * 100)%float
  else 0%float.

(** The rows of a reading, and whether the loop of [leer_csv] gets through
    it: the reading does not fail and no row holds [None] as its region
    (a line that stops before the region column).  Neither looks at a
    designated numeric field. *)
Fixpoint filas_de (lector : lectura) : list fila_cruda :=
  match lector with
  | Fila cruda resto => cruda :: filas_de resto
  | _ => []
  end.

Definition region_legible (cruda : fila_cruda) : bool :=
  match dict_get String.eqb cruda "PROVINCIA" with
  | Some None => false
  | _ => true
  end.

Fixpoint lectura_completa (lector : lectura) : bool :=
  match lector with
  | Fin => true
  | Fila cruda resto => region_legible cruda && lectura_completa resto
  | Falla _ => false
  end.

(** The region a row is filed under: its own, or the default. *)
Definition region_o_defecto (cruda : fila_cruda) : string :=
  match dict_get String.eqb cruda "PROVINCIA" with
  | Some (Some s) => s
  | _ => "DESCONOCIDA"
  end.

(** The record a row of the reader becomes. *)
Definition registro_de (B : Builtins) (cruda : fila_cruda) : registro :=
  fila_limpia B (fila_de_lector cruda) (VStr (py_upper B (region_o_defecto cruda))).

(** The value a row of the reader holds in a column, [None] when the
    column is absent: what [fila.get(campo)] reads. *)
Definition valor_crudo (cruda : fila_cruda) (campo : string) : valor :=
  dict_get_or String.eqb (fila_de_lector cruda) campo VNone.

(** The value of [provincia_con_mas_importaciones] once the imports are
    grouped. *)
Definition maximo_de (importaciones_por_provincia : acumulador)
    : Exc (valor * float) :=
  match importaciones_por_provincia with
  | [] => Ok (VNone, 0%float)
  | _ =>
      bind (py_max_key (dict_keys importaciones_por_provincia)
              (dict_get valor_eqb importaciones_por_provincia))
        (fun provincia_max =>
           Ok (provincia_max,
               fst (defaultdict_item importaciones_por_provincia provincia_max)))
  end.

(** ** The vocabulary of the further properties *)

(** The first occurrences of the texts of a list, in order. *)
Fixpoint primeras (l : list string) : list string :=
  match l with
  | [] => []
  | k :: l' => k :: filter (fun k' => negb (String.eqb k' k)) (primeras l')
  end.

(** A text is a key of a dict of sums. *)
Definition en (d : acumulador) (k : string) : bool :=
  match dict_get valor_eqb d (VStr k) with
  | Some _ => true
  | None => false
  end.


(** The rows that become records: all of them, or none. *)
Definition filas_cargadas (lector : lectura) : list fila_cruda :=
  if lectura_completa lector then filas_de lector else [].

(** * Properties *)

(** ** Floats that are not negative *)

Section FloatFacts.
Import PyFloat.
Local Open Scope float_scope.

Lemma Prim2SF_cero : Prim2SF 0 = S754_zero false.
Proof. reflexivity. Qed.

Ltac por_casos a :=
  rewrite ?leb_spec, ?ltb_spec, ?eqb_spec, ?Prim2SF_cero;
  destruct (Prim2SF a) as [[]|[]| |[] ? ?];
  unfold SFltb, SFleb, SFeqb; simpl; intuition congruence.

Lemma no_negativo_sf a :
  no_negativo a <-> sf_no_negativo (Prim2SF a) = true.
Proof. unfold no_negativo. por_casos a. Qed.

Lemma no_negativo_cero : no_negativo 0.
Proof. reflexivity. Qed.

Lemma ltb_cero_no_negativo a : (0 <? a) = true -> no_negativo a.
Proof. unfold no_negativo. por_casos a. Qed.

Lemma ltb_cero_no_cero a : (0 <? a) = true -> (a =? 0) = false.
Proof. por_casos a. Qed.

(** On a float that is not negative, [> 0] and [!= 0.0] agree. *)
Lemma no_negativo_ltb_eqb a : no_negativo a -> (0 <? a) = negb (a =? 0).
Proof. unfold no_negativo. por_casos a. Qed.

Lemma py_max_cero_casos a :
  (py_max 0 a = 0 /\ (0 <? a) = false) \/ (py_max 0 a = a /\ (0 <? a) = true).
Proof. unfold py_max. destruct (0 <? a); auto. Qed.

Lemma py_max_cero_no_negativo a : no_negativo (py_max 0 a).
Proof.
  destruct (py_max_cero_casos a) as [[-> _]|[-> H]].
  - exact no_negativo_cero.
  - now apply ltb_cero_no_negativo.
Qed.

(** Rounding a mantissa that is not negative never yields a NaN, and
    keeps the sign it is given. *)
Lemma shr_1_pos mrs : (0 <= shr_m mrs)%Z -> (0 <= shr_m (shr_1 mrs))%Z.
Proof.
  destruct mrs as [m r s]; simpl.
  destruct m as [|p|p]; simpl; try lia.
  destruct p; simpl; lia.
Qed.

Lemma iter_shr_1_pos p :
  forall mrs, (0 <= shr_m mrs)%Z -> (0 <= shr_m (iter_pos shr_1 p mrs))%Z.
Proof. induction p; intros mrs H; simpl; auto using shr_1_pos. Qed.

Lemma shr_fexp_pos m e l :
  (0 <= m)%Z -> (0 <= shr_m (fst (shr_fexp prec emax m e l)))%Z.
Proof.
  intros H. unfold shr_fexp, shr.
  assert (Hm : shr_m (shr_record_of_loc m l) = m) by (destruct l as [|[]]; reflexivity).
  destruct (fexp prec emax (Zdigits2 m + e) - e)%Z; simpl; rewrite <- Hm in H;
    auto using iter_shr_1_pos.
Qed.

Lemma round_nearest_even_pos m l :
  (0 <= m)%Z -> (0 <= round_nearest_even m l)%Z.
Proof.
  intros H. destruct l as [|[]]; simpl; try lia. destruct (Z.even m); lia.
Qed.

Lemma binary_round_aux_no_negativo m e l :
  (0 <= m)%Z -> sf_no_negativo (binary_round_aux prec emax false m e l) = true.
Proof.
  intros H. unfold binary_round_aux.
  pose proof (shr_fexp_pos m e l H) as H1.
  destruct (shr_fexp prec emax m e l) as [mrs' e']. simpl in H1.
  pose proof (shr_fexp_pos _ e' loc_Exact
                (round_nearest_even_pos _ (loc_of_shr_record mrs') H1)) as H2.
  destruct (shr_fexp prec emax (round_nearest_even _ _) e' loc_Exact) as [mrs'' e''].
  simpl in H2.
  destruct (shr_m mrs'') as [|p|p]; simpl; try reflexivity; try lia.
  now destruct (Z.leb e'' _).
Qed.

Lemma SFadd_no_negativo x y :
  sf_no_negativo x = true -> sf_no_negativo y = true ->
  sf_no_negativo (SFadd prec emax x y) = true.
Proof.
  destruct x as [[]|[]| |[] mx ex], y as [[]|[]| |[] my ey];
    simpl; try congruence.
  intros _ _. unfold binary_round.
  destruct (shl_align (_ + _) _ _) as [mz ez].
  apply binary_round_aux_no_negativo. lia.
Qed.

Lemma add_no_negativo a b :
  no_negativo a -> no_negativo b -> no_negativo (a + b).
Proof. rewrite !no_negativo_sf, add_spec. apply SFadd_no_negativo. Qed.

Lemma fold_add_no_negativo l :
  Forall no_negativo l ->
  forall a, no_negativo a -> no_negativo (fold_left PrimFloat.add l a).
Proof.
  induction 1 as [|x l Hx _ IH]; intros a Ha; simpl; auto using add_no_negativo.
Qed.

(** The order of the floats that are not negative: total and
    transitive (no NaN among them). *)
Lemma SFcompare_finitos m1 e1 m2 e2 :
  SFcompare (S754_finite false m1 e1) (S754_finite false m2 e2) =
  Some (match (e1 ?= e2)%Z with
        | Lt => Lt
        | Gt => Gt
        | Eq => (m1 ?= m2)%positive
        end).
Proof. reflexivity. Qed.

Ltac sf_casos x := destruct x as [[]|[]| |[] ? ?]; simpl; try discriminate.
Ltac sf_orden :=
  unfold SFltb, SFleb, SFeqb; rewrite ?SFcompare_finitos; simpl;
  repeat match goal with
         | |- context [(?a ?= ?b)%Z] => destruct (Z.compare_spec a b)
         | |- context [(?a ?= ?b)%positive] => destruct (Pos.compare_spec a b)
         end; simpl; try congruence; try lia.

Lemma SFltb_trans x y z :
  sf_no_negativo x = true -> sf_no_negativo y = true -> sf_no_negativo z = true ->
  SFltb x y = true -> SFltb y z = true -> SFltb x z = true.
Proof. sf_casos x; sf_casos y; sf_casos z; intros _ _ _; sf_orden. Qed.

Lemma SFleb_ltb_trans x y z :
  sf_no_negativo x = true -> sf_no_negativo y = true -> sf_no_negativo z = true ->
  SFleb x y = true -> SFltb y z = true -> SFltb x z = true.
Proof. sf_casos x; sf_casos y; sf_casos z; intros _ _ _; sf_orden. Qed.

Lemma SFltb_false_leb x y :
  sf_no_negativo x = true -> sf_no_negativo y = true ->
  SFltb x y = false -> SFleb y x = true.
Proof. sf_casos x; sf_casos y; intros _ _; sf_orden. Qed.

Lemma ltb_trans a b c :
  no_negativo a -> no_negativo b -> no_negativo c ->
  (a <? b) = true -> (b <? c) = true -> (a <? c) = true.
Proof. rewrite !no_negativo_sf, !ltb_spec. apply SFltb_trans. Qed.

Lemma leb_ltb_trans a b c :
  no_negativo a -> no_negativo b -> no_negativo c ->
  (a <=? b) = true -> (b <? c) = true -> (a <? c) = true.
Proof. rewrite !no_negativo_sf, !ltb_spec, leb_spec. apply SFleb_ltb_trans. Qed.

Lemma ltb_false_leb a b :
  no_negativo a -> no_negativo b -> (a <? b) = false -> (b <=? a) = true.
Proof. rewrite !no_negativo_sf, ltb_spec, leb_spec. apply SFltb_false_leb. Qed.

Lemma ltb_irrefl a : (a <? a) = false.
Proof.
  rewrite ltb_spec. unfold SFltb.
  destruct (Prim2SF a) as [[]|[]| |[] m e]; simpl; try reflexivity;
    rewrite Z.compare_refl;
    change (Pos.compare_cont Eq m m) with (m ?= m)%positive;
    now rewrite Pos.compare_refl.
Qed.
Lemma SFltb_leb x y :
  PyFloat.sf_no_negativo x = true -> PyFloat.sf_no_negativo y = true ->
  SFltb x y = true -> SFleb x y = true.
Proof.
  destruct x as [[]|[]| |[] ? ?], y as [[]|[]| |[] ? ?]; simpl; try discriminate;
    intros _ _; unfold SFltb, SFleb; rewrite ?SFcompare_finitos; simpl;
    try congruence.
  destruct (e ?= e0)%Z; try congruence. destruct (m ?= m0)%positive; congruence.
Qed.

Lemma ltb_leb a b :
  PyFloat.no_negativo a -> PyFloat.no_negativo b ->
  (a <? b) = true -> (a <=? b) = true.
Proof. rewrite !no_negativo_sf, ltb_spec, leb_spec. apply SFltb_leb. Qed.

Lemma leb_refl a : PyFloat.no_negativo a -> (a <=? a) = true.
Proof.
  intros H. apply ltb_false_leb; auto using ltb_irrefl.
Qed.

End FloatFacts.

(** ** Dictionaries *)

Section DictFacts.
Context {K V : Type} (eqb : K -> K -> bool).
Implicit Types (d : dict (K := K) (V := V)) (k : K) (v : V).

Lemma clave_legal_refl k : clave_legal eqb k -> eqb k k = true.
Proof. intros H. now apply H. Qed.

Lemma dict_get_set d k v k' :
  clave_legal eqb k -> clave_legal eqb k' ->
  dict_get eqb (dict_set eqb d k v) k' =
  if eqb k k' then Some v else dict_get eqb d k'.
Proof.
  intros Hk Hk'. induction d as [|[k0 v0] d IH]; simpl.
  - reflexivity.
  - destruct (eqb k0 k) eqn:E0; simpl.
    + apply Hk in E0. subst k0. now destruct (eqb k k').
    + rewrite IH. destruct (eqb k0 k') eqn:E1; [|reflexivity].
      apply Hk' in E1. subst k0.
      destruct (eqb k k') eqn:E2; [|reflexivity].
      apply Hk' in E2. subst k'. rewrite (clave_legal_refl _ Hk) in E0. discriminate.
Qed.

Lemma dict_keys_set d k v :
  dict_keys (dict_set eqb d k v) =
  match dict_get eqb d k with
  | Some _ => dict_keys d
  | None => dict_keys d ++ [k]
  end.
Proof.
  induction d as [|[k0 v0] d IH]; simpl; [reflexivity|].
  destruct (eqb k0 k); simpl; [reflexivity|].
  rewrite IH. now destruct (dict_get eqb d k).
Qed.

Lemma dict_get_In d k :
  clave_legal eqb k ->
  In k (dict_keys d) <-> dict_get eqb d k <> None.
Proof.
  intros Hk. induction d as [|[k0 v0] d IH]; simpl.
  - tauto.
  - destruct (eqb k0 k) eqn:E.
    + apply Hk in E. split; [discriminate|auto].
    + rewrite <- IH. split; [|tauto].
      intros [->|H]; [|exact H]. rewrite (clave_legal_refl _ Hk) in E. discriminate.
Qed.

End DictFacts.

Lemma clave_legal_string (k : string) : clave_legal String.eqb k.
Proof. intros a. apply String.eqb_eq. Qed.

Lemma clave_legal_texto (s : string) : clave_legal valor_eqb (VStr s).
Proof.
  intros [|t|x]; simpl; split; try discriminate.
  - intros H. apply String.eqb_eq in H. now subst.
  - intros [= ->]. apply String.eqb_refl.
Qed.

Lemma dict_get_set_string {V} (d : dict (V := V)) k v k' :
  dict_get String.eqb (dict_set String.eqb d k v) k' =
  if String.eqb k k' then Some v else dict_get String.eqb d k'.
Proof. apply dict_get_set; apply clave_legal_string. Qed.

Lemma dict_get_fila_de_lector cruda k :
  dict_get String.eqb (fila_de_lector cruda) k =
  option_map valor_de_texto (dict_get String.eqb cruda k).
Proof.
  induction cruda as [|[k0 t] c IH]; simpl; [reflexivity|].
  now destruct (String.eqb k0 k).
Qed.

(** ** The loader *)

Section LoaderFacts.
Variable B : Builtins.

Lemma limpiar_valor_numerico_ok v :
  _limpiar_valor_numerico B v = Ok (limpiar_segun_spec B v).
Proof.
  destruct v as [|s|x]; simpl; try reflexivity;
    unfold float_de; now destruct (py_float B _).
Qed.

Lemma limpiar_segun_spec_no_negativo v :
  PyFloat.no_negativo (limpiar_segun_spec B v).
Proof.
  destruct v as [|s|x]; simpl; try exact no_negativo_cero;
    destruct (py_float B _); auto using py_max_cero_no_negativo, no_negativo_cero.
Qed.

Lemma limpiar_fila_eq fila :
  limpiar_fila B fila =
  bind (upper B (dict_get_or String.eqb fila "PROVINCIA" (VStr "DESCONOCIDA")))
       (fun provincia => Ok (fila_limpia B fila provincia)).
Proof.
  unfold limpiar_fila, fila_limpia.
  destruct (upper B _) as [provincia|e]; [|reflexivity].
  unfold dict_get_or. simpl.
  repeat (first [rewrite limpiar_valor_numerico_ok | rewrite dict_get_set_string];
          simpl).
  reflexivity.
Qed.

(** What a cleaned row holds under each column. *)
Lemma dict_get_fila_limpia fila provincia k :
  dict_get String.eqb (fila_limpia B fila provincia) k =
  if in_dec string_dec k CAMPOS_NUMERICOS_CLAVE
  then Some (VNum (limpiar_segun_spec B (dict_get_or String.eqb fila k VNone)))
  else if String.eqb k "PROVINCIA" then Some provincia
  else dict_get String.eqb fila k.
Proof.
  unfold fila_limpia. simpl fold_left. rewrite !dict_get_set_string.
  destruct (in_dec string_dec k CAMPOS_NUMERICOS_CLAVE) as [H|H].
  - simpl in H. decompose [or] H; subst; try reflexivity. contradiction.
  - simpl in H.
    repeat match goal with
           | |- context [String.eqb ?a k] =>
               destruct (String.eqb_spec a k); [subst; try tauto|]
           end.
    all: try (rewrite String.eqb_refl; reflexivity).
    all: destruct (String.eqb_spec k "PROVINCIA"); [congruence|reflexivity].
Qed.
End LoaderFacts.

Section LoaderInvariant.
Variable B : Builtins.

Lemma fila_limpia_limpio cruda s :
  limpio B (fila_limpia B (fila_de_lector cruda) (VStr (py_upper B s))).
Proof.
  split; [|split].
  - exists s. now rewrite dict_get_fila_limpia.
  - intros campo H. rewrite dict_get_fila_limpia.
    destruct (in_dec string_dec campo CAMPOS_NUMERICOS_CLAVE); [|contradiction].
    eauto using limpiar_segun_spec_no_negativo.
  - intros k x. rewrite dict_get_fila_limpia.
    destruct (in_dec string_dec k CAMPOS_NUMERICOS_CLAVE); [auto|].
    destruct (String.eqb k "PROVINCIA"); [discriminate|].
    rewrite dict_get_fila_de_lector.
    destruct (dict_get String.eqb cruda k) as [[t|]|]; discriminate.
Qed.

(** The outcome of the loop body on a row of the reader, by what the
    row holds as its region. *)
Lemma limpiar_fila_de_lector cruda :
  limpiar_fila B (fila_de_lector cruda) =
  match dict_get String.eqb cruda "PROVINCIA" with
  | Some None => Raise AttributeError
  | Some (Some s) =>
      Ok (fila_limpia B (fila_de_lector cruda) (VStr (py_upper B s)))
  | None =>
      Ok (fila_limpia B (fila_de_lector cruda) (VStr (py_upper B "DESCONOCIDA")))
  end.
Proof.
  rewrite limpiar_fila_eq. unfold dict_get_or.
  rewrite dict_get_fila_de_lector.
  now destruct (dict_get String.eqb cruda "PROVINCIA") as [[t|]|].
Qed.

Lemma limpiar_fila_limpio cruda fila :
  limpiar_fila B (fila_de_lector cruda) = Ok fila -> limpio B fila.
Proof.
  rewrite limpiar_fila_de_lector.
  destruct (dict_get String.eqb cruda "PROVINCIA") as [[t|]|];
    intros [= <-]; apply fila_limpia_limpio.
Qed.

Lemma leer_filas_limpio lector :
  forall previos datos,
    leer_filas B lector previos = Ok datos ->
    Forall (limpio B) previos -> Forall (limpio B) datos.
Proof.
  induction lector as [|cruda resto IH|e]; simpl; intros previos datos H Hp.
  - now injection H as <-.
  - destruct (limpiar_fila B (fila_de_lector cruda)) as [fila|e] eqn:E;
      simpl in H; [|discriminate].
    apply (IH _ _ H). apply Forall_app. split; [exact Hp|].
    constructor; [|constructor]. eapply limpiar_fila_limpio, E.
  - discriminate.
Qed.

(** [leer_csv] always returns, and what it returns is clean. *)
Lemma leer_csv_limpio ruta :
  exists avisos datos,
    leer_csv B ruta = (avisos, Ok datos) /\ Forall (limpio B) datos.
Proof.
  destruct ruta as [|lector]; simpl.
  - eauto.
  - destruct (leer_filas B lector []) as [datos|e] eqn:E; eauto.
    exists [], datos. split; [reflexivity|].
    eapply leer_filas_limpio; [exact E|constructor].
Qed.

Lemma init_limpio ruta :
  exists avisos self,
    __init__ B ruta = (avisos, Ok self) /\
    leer_csv B ruta = (avisos, Ok (datos self)) /\
    Forall (limpio B) (datos self).
Proof.
  destruct (leer_csv_limpio ruta) as (avisos & ds & H & Hl).
  exists avisos, {| datos := ds |}. unfold __init__. rewrite H. auto.
Qed.

(** The loop of [leer_csv], exactly: every row is kept, in order, when
    the reading is complete; otherwise the loop raises. *)
Lemma leer_filas_exacto lector :
  forall previos,
    if lectura_completa lector
    then leer_filas B lector previos =
         Ok (previos ++ map (registro_de B) (filas_de lector))
    else exists e, leer_filas B lector previos = Raise e.
Proof.
  induction lector as [|cruda resto IH|e]; simpl; intros previos.
  - now rewrite app_nil_r.
  - rewrite limpiar_fila_de_lector.
    unfold region_legible, registro_de, region_o_defecto.
    destruct (dict_get String.eqb cruda "PROVINCIA") as [[t|]|]; simpl;
      [| now exists AttributeError |];
      match goal with
      | |- context [leer_filas B resto ?p] => specialize (IH p)
      end;
      (destruct (lectura_completa resto);
       [rewrite IH, <- app_assoc; reflexivity | exact IH]).
  - eauto.
Qed.

Lemma leer_csv_exacto lector :
  exists avisos,
    leer_csv B (Existe lector) =
    (avisos,
     Ok (if lectura_completa lector
         then map (registro_de B) (filas_de lector)
         else [])).
Proof.
  simpl. pose proof (leer_filas_exacto lector []) as H.
  destruct (lectura_completa lector).
  - rewrite H. eauto.
  - destruct H as [e ->]. eauto.
Qed.

Lemma termina_en_falla_incompleta lector :
  termina_en_falla lector = true -> lectura_completa lector = false.
Proof.
  induction lector as [|cruda resto IH|e]; simpl; intros H;
    [discriminate| |reflexivity].
  rewrite (IH H). apply andb_false_r.
Qed.

Lemma dict_get_registro_de cruda campo :
  In campo CAMPOS_NUMERICOS_CLAVE ->
  dict_get String.eqb (registro_de B cruda) campo =
  Some (VNum (limpiar_segun_spec B (valor_crudo cruda campo))).
Proof.
  intros H. unfold registro_de. rewrite dict_get_fila_limpia.
  now destruct (in_dec string_dec campo CAMPOS_NUMERICOS_CLAVE).
Qed.

Lemma dict_get_registro_de_provincia cruda :
  dict_get String.eqb (registro_de B cruda) "PROVINCIA" =
  Some (VStr (py_upper B (region_o_defecto cruda))).
Proof. unfold registro_de. now rewrite dict_get_fila_limpia. Qed.
End LoaderInvariant.

(** ** Grouped sums *)

Section AcumuladorFacts.
Local Open Scope float_scope.

Lemma sumar_en_texto d k x :
  sumar_en d (VStr k) (VNum x) = Ok (acumular d k x).
Proof.
  unfold sumar_en, acumular.
  now destruct (defaultdict_item d (VStr k)) as [actual d'].
Qed.

Lemma dict_get_acumular d k0 x k :
  dict_get valor_eqb (acumular d k0 x) (VStr k) =
  if String.eqb k0 k
  then Some (dict_get_or valor_eqb d (VStr k0) 0 + x)
  else dict_get valor_eqb d (VStr k).
Proof.
  unfold acumular, defaultdict_item, dict_get_or.
  destruct (dict_get valor_eqb d (VStr k0)) as [a|] eqn:E; simpl;
    rewrite ?dict_get_set by apply clave_legal_texto; simpl;
    now destruct (String.eqb k0 k).
Qed.

Lemma dict_keys_acumular d k x :
  dict_keys (acumular d k x) =
  match dict_get valor_eqb d (VStr k) with
  | Some _ => dict_keys d
  | None => dict_keys d ++ [VStr k]
  end.
Proof.
  unfold acumular, defaultdict_item.
  destruct (dict_get valor_eqb d (VStr k)) as [a|] eqn:E; simpl.
  - now rewrite dict_keys_set, E.
  - rewrite dict_keys_set, dict_get_set by apply clave_legal_texto.
    simpl. rewrite String.eqb_refl. now rewrite dict_keys_set, E.
Qed.

Variables clave campo : string.

Lemma agrupado_app filas r d :
  agrupado clave campo (filas ++ [r]) d =
  acumular (agrupado clave campo filas d) (texto_de r clave) (numero_de r campo).
Proof. unfold agrupado. now rewrite fold_left_app. Qed.

Lemma hay_app filas r k :
  hay clave (filas ++ [r]) k = hay clave filas k || String.eqb (texto_de r clave) k.
Proof. unfold hay. rewrite existsb_app. simpl. now rewrite orb_false_r. Qed.

Lemma suma_por_app filas r k :
  suma_por clave campo (filas ++ [r]) k =
  if String.eqb (texto_de r clave) k
  then suma_por clave campo filas k + numero_de r campo
  else suma_por clave campo filas k.
Proof.
  unfold suma_por, grupo. rewrite filter_app. simpl.
  destruct (String.eqb (texto_de r clave) k).
  - now rewrite map_app, fold_left_app.
  - now rewrite app_nil_r.
Qed.

Lemma suma_por_sin_grupo filas k :
  hay clave filas k = false -> suma_por clave campo filas k = 0.
Proof.
  unfold hay, suma_por, grupo. induction filas as [|r filas IH]; simpl; [reflexivity|].
  destruct (String.eqb (texto_de r clave) k); simpl; [discriminate|exact IH].
Qed.

(** The entry of a group is the sum over the group, and only groups
    with a record have an entry. *)
Lemma dict_get_agrupado filas k :
  dict_get valor_eqb (agrupado clave campo filas []) (VStr k) =
  if hay clave filas k then Some (suma_por clave campo filas k) else None.
Proof.
  induction filas as [|r filas IH] using rev_ind; [reflexivity|].
  rewrite agrupado_app, dict_get_acumular, hay_app, suma_por_app.
  destruct (String.eqb_spec (texto_de r clave) k) as [->|Hk].
  - rewrite orb_true_r. unfold dict_get_or. rewrite IH.
    destruct (hay clave filas k) eqn:E; [reflexivity|].
    now rewrite suma_por_sin_grupo.
  - now rewrite orb_false_r.
Qed.

(** The keys are the texts of the groups, each once. *)
Lemma dict_keys_agrupado filas :
  NoDup (dict_keys (agrupado clave campo filas [])) /\
  forall key, In key (dict_keys (agrupado clave campo filas [])) <->
              exists k, key = VStr k /\ hay clave filas k = true.
Proof.
  induction filas as [|r filas [IH1 IH2]] using rev_ind.
  - split; [constructor|]. simpl. intros key. split; [tauto|]. now intros (k & _ & H).
  - rewrite agrupado_app, dict_keys_acumular.
    destruct (dict_get valor_eqb (agrupado clave campo filas []) (VStr (texto_de r clave)))
      as [a|] eqn:E.
    + split; [exact IH1|]. intros key. rewrite IH2.
      assert (Hr : hay clave filas (texto_de r clave) = true).
      { rewrite dict_get_agrupado in E. now destruct (hay clave filas _). }
      split; intros (k & -> & H); exists k; (split; [reflexivity|]);
        rewrite hay_app in *.
      * now rewrite H.
      * destruct (String.eqb_spec (texto_de r clave) k) as [Ek|Ek];
          [now rewrite <- Ek|].
        now rewrite orb_false_r in H.
    + assert (Hr : hay clave filas (texto_de r clave) = false).
      { rewrite dict_get_agrupado in E. now destruct (hay clave filas _). }
      split.
      * apply NoDup_app; [exact IH1|constructor; [simpl; tauto|constructor]|].
        intros key H1 [<-|[]]. apply IH2 in H1. destruct H1 as (k & [= <-] & H).
        congruence.
      * intros key. rewrite in_app_iff, IH2. simpl.
        split.
        -- intros [(k & -> & H)|[<-|[]]].
           ++ exists k. split; [reflexivity|]. now rewrite hay_app, H.
           ++ exists (texto_de r clave). split; [reflexivity|].
              now rewrite hay_app, String.eqb_refl, orb_true_r.
        -- intros (k & -> & H). rewrite hay_app in H.
           destruct (String.eqb_spec (texto_de r clave) k) as [Ek|Ek];
             [rewrite Ek; auto|].
           rewrite orb_false_r in H. eauto.
Qed.

(** Leaving out the records without a key changes no group with one. *)
Lemma grupo_con_clave datos k :
  k <> "" -> grupo clave (con_clave clave datos) k = grupo clave datos k.
Proof.
  intros Hk. unfold grupo, con_clave.
  induction datos as [|r datos IH]; simpl; [reflexivity|].
  destruct (String.eqb_spec (texto_de r clave) "") as [E|E]; simpl.
  - rewrite E. destruct (String.eqb_spec "" k); [congruence|exact IH].
  - destruct (String.eqb (texto_de r clave) k); now rewrite IH.
Qed.

Lemma suma_por_con_clave datos k :
  k <> "" ->
  suma_por clave campo (con_clave clave datos) k = suma_por clave campo datos k.
Proof. intros Hk. unfold suma_por. now rewrite grupo_con_clave. Qed.

Lemma hay_con_clave datos k :
  hay clave (con_clave clave datos) k =
  negb (String.eqb k "") && hay clave datos k.
Proof.
  unfold hay, con_clave. induction datos as [|r datos IH]; simpl.
  - now rewrite andb_false_r.
  - destruct (String.eqb_spec (texto_de r clave) "") as [E|E]; simpl; rewrite IH.
    + rewrite E. destruct (String.eqb_spec "" k) as [<-|]; [reflexivity|].
      reflexivity.
    + destruct (String.eqb_spec (texto_de r clave) k) as [<-|]; simpl; [|reflexivity].
      destruct (String.eqb_spec (texto_de r clave) ""); [contradiction|reflexivity].
Qed.
End AcumuladorFacts.

(** ** The loops over the loaded records *)

Section BucleFacts.
Variable B : Builtins.
Local Open Scope float_scope.

Lemma limpio_numero fila campo :
  limpio B fila -> In campo CAMPOS_NUMERICOS_CLAVE ->
  dict_get String.eqb fila campo = Some (VNum (numero_de fila campo)) /\
  PyFloat.no_negativo (numero_de fila campo).
Proof.
  intros (_ & H & _) Hc. destruct (H campo Hc) as (x & E & Hx).
  unfold numero_de. now rewrite E.
Qed.

Lemma limpio_numero_or fila campo defecto :
  limpio B fila -> In campo CAMPOS_NUMERICOS_CLAVE ->
  dict_get_or String.eqb fila campo defecto = VNum (numero_de fila campo).
Proof.
  intros H Hc. destruct (limpio_numero fila campo H Hc) as [E _].
  unfold dict_get_or. now rewrite E.
Qed.

Lemma limpio_provincia fila :
  limpio B fila ->
  dict_get String.eqb fila "PROVINCIA" = Some (VStr (texto_de fila "PROVINCIA")) /\
  exists s, texto_de fila "PROVINCIA" = py_upper B s.
Proof.
  intros ((s & E) & _). unfold texto_de. rewrite E. eauto.
Qed.

(** A column outside the designated ones holds a text, [None], or is
    absent: as a key it is its text when it is truthy. *)
Lemma limpio_clave fila clave :
  limpio B fila -> ~ In clave CAMPOS_NUMERICOS_CLAVE ->
  let k := dict_get_or String.eqb fila clave VNone in
  truthy k = negb (String.eqb (texto_de fila clave) "") /\
  (truthy k = true -> k = VStr (texto_de fila clave)).
Proof.
  intros (_ & _ & H) Hc. unfold dict_get_or, texto_de.
  destruct (dict_get String.eqb fila clave) as [[|s|x]|] eqn:E; simpl; auto.
  - split; [reflexivity|discriminate].
  - elim Hc. eapply H, E.
  - split; [reflexivity|discriminate].
Qed.

Lemma suma_por_no_negativo clave campo datos k :
  Forall (limpio B) datos -> In campo CAMPOS_NUMERICOS_CLAVE ->
  PyFloat.no_negativo (suma_por clave campo datos k).
Proof.
  intros H Hc. unfold suma_por. apply fold_add_no_negativo; [|exact no_negativo_cero].
  apply Forall_map. unfold grupo. apply Forall_forall. intros r Hr.
  apply filter_In in Hr. destruct Hr as [Hr _].
  rewrite Forall_forall in H. now apply limpio_numero; auto.
Qed.

(** A guarded loop ([if clave:]) sums the records with a key. *)
Lemma bucle_guardado clave campo datos :
  ~ In clave CAMPOS_NUMERICOS_CLAVE -> In campo CAMPOS_NUMERICOS_CLAVE ->
  Forall (limpio B) datos ->
  forall d,
    for_each datos d (fun d fila =>
      let k := dict_get_or String.eqb fila clave VNone in
      let v := dict_get_or String.eqb fila campo (VNum 0) in
      if truthy k then sumar_en d k v else Ok d) =
    Ok (agrupado clave campo (con_clave clave datos) d).
Proof.
  intros Hk Hc. induction 1 as [|r datos Hr _ IH]; intros d; simpl; [reflexivity|].
  destruct (limpio_clave r clave Hr Hk) as [E1 E2].
  rewrite (limpio_numero_or r campo _ Hr Hc).
  rewrite <- E1. destruct (truthy _) eqn:E; simpl.
  - rewrite (E2 eq_refl), sumar_en_texto. simpl. apply IH.
  - apply IH.
Qed.

Lemma bucle_ventas_totales datos :
  Forall (limpio B) datos ->
  forall d,
    for_each datos d (fun totales fila =>
      bind (dict_item String.eqb fila "PROVINCIA") (fun provincia =>
      bind (dict_item String.eqb fila "TOTAL_VENTAS") (fun total_venta =>
      sumar_en totales provincia total_venta))) =
    Ok (agrupado "PROVINCIA" "TOTAL_VENTAS" datos d).
Proof.
  induction 1 as [|r datos Hr _ IH]; intros d; simpl; [reflexivity|].
  destruct (limpio_provincia r Hr) as [E1 _].
  destruct (limpio_numero r "TOTAL_VENTAS" Hr) as [E2 _]; [simpl; auto|].
  unfold dict_item. rewrite E1, E2. simpl. rewrite sumar_en_texto. simpl. apply IH.
Qed.

(** The first loop of [porcentaje_ventas_tarifa_cero] builds the two
    grouped sums side by side. *)
Lemma bucle_porcentaje datos :
  Forall (limpio B) datos ->
  forall d1 d2,
    for_each datos (d1, d2) (fun '(ventas_cero, ventas_totales) fila =>
      let provincia := dict_get_or String.eqb fila "PROVINCIA" VNone in
      let vta_cero := dict_get_or String.eqb fila "VENTAS_NETAS_TARIFA_0" (VNum 0) in
      let vta_total := dict_get_or String.eqb fila "TOTAL_VENTAS" (VNum 0) in
      if truthy provincia then
        bind (sumar_en ventas_cero provincia vta_cero) (fun ventas_cero =>
        bind (sumar_en ventas_totales provincia vta_total) (fun ventas_totales =>
        Ok (ventas_cero, ventas_totales)))
      else Ok (ventas_cero, ventas_totales)) =
    Ok (agrupado "PROVINCIA" "VENTAS_NETAS_TARIFA_0" (con_clave "PROVINCIA" datos) d1,
        agrupado "PROVINCIA" "TOTAL_VENTAS" (con_clave "PROVINCIA" datos) d2).
Proof.
  induction 1 as [|r datos Hr _ IH]; intros d1 d2; simpl; [reflexivity|].
  destruct (limpio_clave r "PROVINCIA" Hr) as [E1 E2].
  { simpl. intuition discriminate. }
  rewrite (limpio_numero_or r "VENTAS_NETAS_TARIFA_0" _ Hr) by (simpl; auto).
  rewrite (limpio_numero_or r "TOTAL_VENTAS" _ Hr) by (simpl; auto).
  rewrite <- E1. destruct (truthy _) eqn:E; simpl.
  - rewrite (E2 eq_refl), !sumar_en_texto. simpl. apply IH.
  - apply IH.
Qed.
End BucleFacts.

(** ** The maximum of a dict by its values *)

Section MaxFacts.
Local Open Scope float_scope.
Variable key : valor -> option float.
Variable val : valor -> float.

(** Every item has a value, and none is negative. *)
Let buenos (l : list valor) : Prop :=
  forall q, In q l -> key q = Some (val q) /\ PyFloat.no_negativo (val q).

Lemma max_bucle_spec resto :
  forall pre maxitem mid,
    buenos (pre ++ maxitem :: mid ++ resto) ->
    (forall q, In q pre -> (val q <? val maxitem) = true) ->
    (forall q, In q mid -> (val q <=? val maxitem) = true) ->
    exists p pre' post',
      max_bucle key resto maxitem (key maxitem) = Ok p /\
      pre ++ maxitem :: mid ++ resto = pre' ++ p :: post' /\
      (forall q, In q pre' -> (val q <? val p) = true) /\
      (forall q, In q post' -> (val q <=? val p) = true).
Proof.
  induction resto as [|item resto IH]; intros pre maxitem mid Hb Hpre Hmid.
  - exists maxitem, pre, mid. rewrite app_nil_r. auto.
  - assert (Hmax : key maxitem = Some (val maxitem) /\ PyFloat.no_negativo (val maxitem)).
    { apply Hb. rewrite in_app_iff. simpl. auto. }
    assert (Hitem : key item = Some (val item) /\ PyFloat.no_negativo (val item)).
    { apply Hb. rewrite in_app_iff. simpl. rewrite in_app_iff. simpl. auto. }
    destruct Hmax as [Emax Nmax], Hitem as [Eitem Nitem].
    simpl. rewrite Eitem, Emax. simpl.
    destruct (val maxitem <? val item) eqn:E.
    + destruct (IH (pre ++ maxitem :: mid) item []) as (p & pre' & post' & H1 & H2 & H3 & H4).
      * simpl. rewrite <- app_assoc. exact Hb.
      * intros q Hq. rewrite in_app_iff in Hq. simpl in Hq.
        assert (Nq : PyFloat.no_negativo (val q)).
        { apply Hb. rewrite in_app_iff. simpl. rewrite in_app_iff. tauto. }
        destruct Hq as [Hq|[<-|Hq]].
        -- eapply ltb_trans; [| | |apply Hpre, Hq|exact E]; assumption.
        -- exact E.
        -- eapply leb_ltb_trans; [| | |apply Hmid, Hq|exact E]; assumption.
      * intros q [].
      * rewrite Eitem in H1. exists p, pre', post'.
        simpl in H2. rewrite <- app_assoc in H2. auto.
    + destruct (IH pre maxitem (mid ++ [item])) as (p & pre' & post' & H1 & H2 & H3 & H4).
      * rewrite <- app_assoc. exact Hb.
      * exact Hpre.
      * intros q Hq. rewrite in_app_iff in Hq. destruct Hq as [Hq|[<-|[]]]; [auto|].
        now apply ltb_false_leb.
      * rewrite Emax in H1. exists p, pre', post'.
        rewrite <- app_assoc in H2. auto.
Qed.

(** [max] returns the first item whose value is maximal: the items
    before it are strictly smaller, no later one is greater. *)
Lemma py_max_key_spec l :
  l <> [] -> buenos l ->
  exists p pre post,
    py_max_key l key = Ok p /\
    l = pre ++ p :: post /\
    (forall q, In q pre -> (val q <? val p) = true) /\
    (forall q, In q post -> (val q <=? val p) = true).
Proof.
  destruct l as [|item resto]; [congruence|]. intros _ Hb.
  destruct (max_bucle_spec resto [] item [] Hb) as (p & pre & post & H);
    [intros q []|intros q []|].
  exists p, pre, post. exact H.
Qed.
End MaxFacts.

(** ** The second loop of the percentages *)

Section PorcentajeFacts.
Local Open Scope float_scope.

Lemma dict_set_nuevo {K V} (eqb : K -> K -> bool) (d : dict (K := K) (V := V)) k v :
  dict_get eqb d k = None -> dict_set eqb d k v = d ++ [(k, v)].
Proof.
  induction d as [|[k0 v0] d IH]; simpl; [reflexivity|].
  destruct (eqb k0 k); [discriminate|]. intros H. now rewrite IH.
Qed.

Variable ventas_cero : acumulador.

Lemma bucle_porcentajes totales :
  forall porcentajes,
    NoDup (dict_keys porcentajes ++ dict_keys totales) ->
    (forall key, In key (dict_keys totales) -> exists k, key = VStr k) ->
    for_each totales porcentajes
      (fun porcentajes '(provincia, total_ventas) =>
         let ventas_cero := fst (defaultdict_item ventas_cero provincia) in
         if 0 <? total_ventas then
           bind (py_div ventas_cero total_ventas) (fun cociente =>
           let porcentaje := cociente * 100 in
           Ok (dict_set valor_eqb porcentajes provincia porcentaje))
         else Ok (dict_set valor_eqb porcentajes provincia 0)) =
    Ok (porcentajes ++
        map (fun kt => (fst kt, porcentaje_de ventas_cero (fst kt) (snd kt))) totales).
Proof.
  induction totales as [|[key t] totales IH]; intros porcentajes Hnd Htxt; simpl.
  - now rewrite app_nil_r.
  - destruct (Htxt key) as [k ->]; [simpl; auto|].
    assert (Hget : dict_get valor_eqb porcentajes (VStr k) = None).
    { destruct (dict_get valor_eqb porcentajes (VStr k)) eqn:E; [|reflexivity].
      exfalso. assert (Hin : In (VStr k) (dict_keys porcentajes)).
      { apply (dict_get_In valor_eqb); [apply clave_legal_texto|congruence]. }
      simpl in Hnd. apply NoDup_remove_2 in Hnd. apply Hnd.
      rewrite in_app_iff. auto. }
    assert (Hstep : forall v,
               for_each totales (dict_set valor_eqb porcentajes (VStr k) v)
                 (fun porcentajes '(provincia, total_ventas) =>
                    let ventas_cero := fst (defaultdict_item ventas_cero provincia) in
                    if 0 <? total_ventas then
                      bind (py_div ventas_cero total_ventas) (fun cociente =>
                      let porcentaje := cociente * 100 in
                      Ok (dict_set valor_eqb porcentajes provincia porcentaje))
                    else Ok (dict_set valor_eqb porcentajes provincia 0)) =
               Ok ((porcentajes ++ [(VStr k, v)]) ++
                   map (fun kt => (fst kt, porcentaje_de ventas_cero (fst kt) (snd kt)))
                     totales)).
    { intros v. rewrite (dict_set_nuevo _ _ _ _ Hget). apply IH.
      - unfold dict_keys in *. rewrite map_app. simpl in *.
        rewrite <- app_assoc. exact Hnd.
      - intros key Hk. apply Htxt. simpl. auto. }
    unfold porcentaje_de. destruct (0 <? t) eqn:E.
    + unfold py_div. rewrite (ltb_cero_no_cero _ E). simpl.
      rewrite Hstep, <- app_assoc. reflexivity.
    + simpl. rewrite Hstep, <- app_assoc. reflexivity.
Qed.

Lemma dict_get_map_valores (f : valor -> float -> float) (d : acumulador) k :
  dict_get valor_eqb (map (fun kt => (fst kt, f (fst kt) (snd kt))) d) (VStr k) =
  option_map (f (VStr k)) (dict_get valor_eqb d (VStr k)).
Proof.
  induction d as [|[k0 t] d IH]; simpl; [reflexivity|].
  destruct (valor_eqb k0 (VStr k)) eqn:E; [|exact IH].
  apply clave_legal_texto in E. now subst.
Qed.
End PorcentajeFacts.

(** ** The queries on loaded records *)

Section ConsultaFacts.
Variable B : Builtins.
Variable self : Analizador.
Hypothesis cargado : Forall (limpio B) (datos self).
Local Open Scope float_scope.

Lemma ventas_totales_agrupado :
  ventas_totales_por_provincia self =
  Ok (agrupado "PROVINCIA" "TOTAL_VENTAS" (datos self) []).
Proof. apply (bucle_ventas_totales B), cargado. Qed.

Lemma exportaciones_agrupado :
  exportaciones_totales_por_mes self =
  Ok (agrupado "MES" "EXPORTACIONES" (con_clave "MES" (datos self)) []).
Proof.
  apply (bucle_guardado B "MES" "EXPORTACIONES"); simpl; auto using cargado.
  intuition discriminate.
Qed.

Lemma importaciones_maximo :
  provincia_con_mas_importaciones self =
  maximo_de (agrupado "PROVINCIA" "IMPORTACIONES"
               (con_clave "PROVINCIA" (datos self)) []).
Proof.
  unfold provincia_con_mas_importaciones.
  rewrite (bucle_guardado B "PROVINCIA" "IMPORTACIONES"); simpl; auto using cargado.
  intuition discriminate.
Qed.

Lemma porcentaje_agrupado :
  porcentaje_ventas_tarifa_cero self =
  Ok (map (fun kt =>
             (fst kt,
              porcentaje_de
                (agrupado "PROVINCIA" "VENTAS_NETAS_TARIFA_0"
                   (con_clave "PROVINCIA" (datos self)) [])
                (fst kt) (snd kt)))
        (agrupado "PROVINCIA" "TOTAL_VENTAS" (con_clave "PROVINCIA" (datos self)) [])).
Proof.
  unfold porcentaje_ventas_tarifa_cero.
  rewrite (bucle_porcentaje B _ cargado). simpl bind.
  rewrite bucle_porcentajes; [reflexivity| |].
  - apply dict_keys_agrupado.
  - intros key H. apply dict_keys_agrupado in H. destruct H as (k & -> & _). eauto.
Qed.
End ConsultaFacts.

(** ** The first record of the maximal group *)

Section OrdenFacts.
Local Open Scope float_scope.

Lemma primera_aparicion {A} (x : A) a :
  forall a' b b',
    a ++ x :: b = a' ++ x :: b' -> ~ In x a -> ~ In x a' -> a = a' /\ b = b'.
Proof.
  induction a as [|y a IH]; intros [|y' a'] b b'; simpl; intros E H H'.
  - now injection E.
  - injection E as -> _. tauto.
  - injection E as -> _. tauto.
  - injection E as -> E. destruct (IH a' b b' E) as [-> ->]; tauto.
Qed.

Variables clave campo : string.

Lemma primer_registro filas k :
  hay clave filas k = true ->
  exists antes r despues,
    filas = antes ++ r :: despues /\ texto_de r clave = k /\
    hay clave antes k = false.
Proof.
  unfold hay. induction filas as [|f filas IH]; simpl; [discriminate|].
  destruct (String.eqb_spec (texto_de f clave) k) as [E|E]; simpl.
  - intros _. exists [], f, filas. auto.
  - intros H. destruct (IH H) as (antes & r & despues & -> & H1 & H2).
    exists (f :: antes), r, despues. simpl.
    destruct (String.eqb_spec (texto_de f clave) k); [contradiction|]. auto.
Qed.

Lemma hay_In filas f :
  In f filas -> hay clave filas (texto_de f clave) = true.
Proof.
  intros H. unfold hay. apply existsb_exists. exists f.
  now rewrite String.eqb_refl.
Qed.

Lemma dict_keys_agrupado_prefijo filas :
  forall d, exists extra,
    dict_keys (agrupado clave campo filas d) = dict_keys d ++ extra.
Proof.
  unfold agrupado. induction filas as [|r filas IH]; intros d; simpl.
  - exists []. now rewrite app_nil_r.
  - destruct (IH (acumular d (texto_de r clave) (numero_de r campo))) as [extra E].
    rewrite E, dict_keys_acumular.
    destruct (dict_get valor_eqb d _); [eauto|].
    rewrite <- app_assoc. eauto.
Qed.

Lemma agrupado_partes filas1 filas2 d :
  agrupado clave campo (filas1 ++ filas2) d =
  agrupado clave campo filas2 (agrupado clave campo filas1 d).
Proof. unfold agrupado. apply fold_left_app. Qed.

Variable filas : list registro.
Hypothesis no_vacia : filas <> [].
Hypothesis sumas_no_negativas :
  forall k, PyFloat.no_negativo (suma_por clave campo filas k).

Let suma := suma_por clave campo filas.

(** The result of the maximum: the group [p] of the first record [r]
    no record before which belongs to a group with as large a sum, and
    no record after which to one with a larger sum. *)
Lemma maximo_de_agrupado :
  exists p antes r despues,
    maximo_de (agrupado clave campo filas []) = Ok (VStr p, suma p) /\
    filas = antes ++ r :: despues /\
    texto_de r clave = p /\
    (forall f, In f antes -> (suma (texto_de f clave) <? suma p) = true) /\
    (forall f, In f despues -> (suma (texto_de f clave) <=? suma p) = true).
Proof.
  set (d := agrupado clave campo filas []).
  set (val := fun q => match q with VStr k => suma k | _ => 0 end).
  destruct (dict_keys_agrupado clave campo filas) as [Hnd Hkeys]. fold d in Hnd, Hkeys.
  assert (Hd : dict_keys d <> []).
  { destruct filas as [|f0 fs] eqn:Ef; [congruence|].
    assert (H : In (VStr (texto_de f0 clave)) (dict_keys d)).
    { apply Hkeys. exists (texto_de f0 clave). split; [reflexivity|].
      apply hay_In. simpl. auto. }
    intros E. rewrite E in H. exact H. }
  assert (Hget : forall k, hay clave filas k = true ->
                           dict_get valor_eqb d (VStr k) = Some (suma k)).
  { intros k H. unfold d. now rewrite dict_get_agrupado, H. }
  destruct (py_max_key_spec (dict_get valor_eqb d) val (dict_keys d) Hd)
    as (p0 & pre & post & H1 & H2 & H3 & H4).
  { intros q Hq. apply Hkeys in Hq. destruct Hq as (k & -> & Hk).
    split; [now apply Hget|apply sumas_no_negativas]. }
  assert (Hp0 : In p0 (dict_keys d)) by (rewrite H2, in_app_iff; simpl; auto).
  apply Hkeys in Hp0. destruct Hp0 as (p & -> & Hp).
  destruct (primer_registro filas p Hp) as (antes & r & despues & Ef & Er & Hantes).
  exists p, antes, r, despues.
  assert (Hmax : maximo_de d = Ok (VStr p, suma p)).
  { unfold maximo_de. destruct d as [|e d'] eqn:Ed; [now elim Hd|].
    rewrite H1. simpl bind. unfold defaultdict_item. now rewrite (Hget p Hp). }
  split; [exact Hmax|]. split; [exact Ef|]. split; [exact Er|].
  (* the keys before [p] are the groups of the records before [r] *)
  assert (Hpre : pre = dict_keys (agrupado clave campo antes [])).
  { destruct (dict_keys_agrupado_prefijo despues
                (agrupado clave campo (antes ++ [r]) [])) as [extra E].
    rewrite <- agrupado_partes, <- app_assoc in E. simpl in E.
    rewrite <- Ef in E. fold d in E.
    rewrite agrupado_app, dict_keys_acumular, dict_get_agrupado, Er, Hantes in E.
    rewrite <- app_assoc in E. simpl in E. rewrite H2 in E.
    apply primera_aparicion in E; [tauto| |].
    - intros Hin. apply H3 in Hin. simpl in Hin. now rewrite ltb_irrefl in Hin.
    - intros Hin. apply dict_keys_agrupado in Hin.
      destruct Hin as (k & [= <-] & Hk). congruence. }
  split.
  - intros f Hf. apply (H3 (VStr (texto_de f clave))).
    rewrite Hpre. apply dict_keys_agrupado. eexists. split; [reflexivity|].
    now apply hay_In.
  - intros f Hf.
    assert (Hin : In (VStr (texto_de f clave)) (dict_keys d)).
    { apply Hkeys. eexists. split; [reflexivity|]. apply hay_In.
      rewrite Ef, in_app_iff. simpl. auto. }
    rewrite H2, in_app_iff in Hin. simpl in Hin.
    destruct Hin as [Hin|[Hin|Hin]].
    + apply ltb_leb; try apply sumas_no_negativas. apply (H3 _ Hin).
    + injection Hin as <-. apply leb_refl, sumas_no_negativas.
    + apply (H4 _ Hin).
Qed.
End OrdenFacts.

(** ** Regions with and without a name *)

Section RegionFacts.
Variable B : Builtins.
Variable self : Analizador.
Hypothesis cargado : Forall (limpio B) (datos self).
Local Open Scope float_scope.

Lemma con_clave_limpio clave : Forall (limpio B) (con_clave clave (datos self)).
Proof.
  unfold con_clave. rewrite Forall_forall in *. intros f Hf.
  apply filter_In in Hf. now apply cargado.
Qed.

Lemma con_clave_con_clave clave (filas : list registro) :
  con_clave clave (con_clave clave filas) = con_clave clave filas.
Proof.
  unfold con_clave. induction filas as [|f filas IH]; simpl; [reflexivity|].
  destruct (negb (String.eqb (texto_de f clave) "")) eqn:E; simpl; [|exact IH].
  now rewrite E, IH.
Qed.

Lemma con_clave_In clave (filas : list registro) f :
  In f (con_clave clave filas) -> texto_de f clave <> "".
Proof.
  unfold con_clave. intros H. apply filter_In in H. destruct H as [_ H].
  now destruct (String.eqb_spec (texto_de f clave) "").
Qed.

(** The result of the maximum of imports, on loaded records. *)
Lemma importaciones_maximo_spec :
  let suma := suma_por "PROVINCIA" "IMPORTACIONES" (datos self) in
  let con_region := con_clave "PROVINCIA" (datos self) in
  (con_region = [] -> provincia_con_mas_importaciones self = Ok (VNone, 0)) /\
  (con_region <> [] ->
   exists p antes r despues,
     provincia_con_mas_importaciones self = Ok (VStr p, suma p) /\
     p <> "" /\
     con_region = antes ++ r :: despues /\
     texto_de r "PROVINCIA" = p /\
     (forall f, In f antes -> (suma (texto_de f "PROVINCIA") <? suma p) = true) /\
     (forall f, In f despues -> (suma (texto_de f "PROVINCIA") <=? suma p) = true)).
Proof.
  intros suma con_region. rewrite (importaciones_maximo B self cargado).
  fold con_region. split.
  - intros ->. reflexivity.
  - intros Hne.
    destruct (maximo_de_agrupado "PROVINCIA" "IMPORTACIONES" con_region Hne)
      as (p & antes & r & despues & H1 & H2 & H3 & H4 & H5).
    { intros k. apply (suma_por_no_negativo B); [apply con_clave_limpio|simpl; auto]. }
    assert (Hin : forall f, In f con_region ->
              suma_por "PROVINCIA" "IMPORTACIONES" con_region (texto_de f "PROVINCIA") =
              suma (texto_de f "PROVINCIA")).
    { intros f Hf. apply suma_por_con_clave. eapply con_clave_In, Hf. }
    assert (Hr : In r con_region) by (rewrite H2, in_app_iff; simpl; auto).
    exists p, antes, r, despues.
    rewrite <- H3 in *. rewrite (Hin r Hr) in *.
    split; [exact H1|]. split; [eapply con_clave_In, Hr|].
    split; [exact H2|]. split; [reflexivity|]. split.
    + intros f Hf. rewrite <- Hin; [auto|]. rewrite H2, in_app_iff. auto.
    + intros f Hf. rewrite <- Hin; [auto|]. rewrite H2, in_app_iff. simpl. auto.
Qed.

(** The entries of the percentages, on loaded records. *)
Lemma porcentaje_spec :
  exists porcentajes,
    porcentaje_ventas_tarifa_cero self = Ok porcentajes /\
    (forall k,
        dict_get valor_eqb porcentajes (VStr k) =
        if negb (String.eqb k "") && hay "PROVINCIA" (datos self) k
        then Some (let total := suma_por "PROVINCIA" "TOTAL_VENTAS" (datos self) k in
                   let cero := suma_por "PROVINCIA" "VENTAS_NETAS_TARIFA_0" (datos self) k in
                   if total =? 0 then 0 else cero / total * 100)
        else None) /\
    (forall key, In key (dict_keys porcentajes) <->
                 exists k, key = VStr k /\ k <> "" /\
                           hay "PROVINCIA" (datos self) k = true).
Proof.
  eexists. split; [apply (porcentaje_agrupado B self cargado)|]. split.
  - intros k. rewrite dict_get_map_valores, dict_get_agrupado, hay_con_clave.
    destruct (String.eqb_spec k "") as [|Hk]; simpl; [reflexivity|].
    destruct (hay "PROVINCIA" (datos self) k) eqn:Hh; simpl; [|reflexivity].
    unfold porcentaje_de, defaultdict_item.
    rewrite dict_get_agrupado, hay_con_clave, Hh.
    destruct (String.eqb_spec k ""); [contradiction|]. simpl.
    rewrite !suma_por_con_clave by exact Hk.
    rewrite no_negativo_ltb_eqb.
    + now destruct (suma_por "PROVINCIA" "TOTAL_VENTAS" (datos self) k =? 0).
    + apply (suma_por_no_negativo B); [exact cargado|simpl; auto].
  - intros key. unfold dict_keys. rewrite map_map. simpl.
    change (map (fun x => fst x) ?l) with (dict_keys l).
    destruct (dict_keys_agrupado "PROVINCIA" "TOTAL_VENTAS"
                (con_clave "PROVINCIA" (datos self))) as [_ H2].
    rewrite H2. split; intros (k & -> & Hm); exists k.
    + rewrite hay_con_clave in Hm. apply andb_prop in Hm. destruct Hm as [Hm1 Hm2].
      destruct (String.eqb_spec k ""); [discriminate|auto].
    + destruct Hm as [Hm1 Hm2]. rewrite hay_con_clave, Hm2.
      destruct (String.eqb_spec k ""); [contradiction|auto].
Qed.
End RegionFacts.

(** * The claims of the specification *)

(** ** The loader *)

(** C1. Every record the loader retains holds each of the four designated
    numeric fields as a float [>= 0.0].  No row is dropped on account of
    such a field: whether the rows of a reading are kept is decided by
    [lectura_completa], which reads no numeric field, and when they are
    kept there is one record per row, in order, each field holding the
    cleaned value of what the row held; the cleaned value of an absent or
    unparseable field is [0.0].  (In DATOS_SIN_REGION the fields 12,5 and
    -3 and the six missing ones load as 12.5 and seven times 0.0.) *)
Theorem C1_campos_numericos_no_negativos :
  forall B : Builtins,
    (forall ruta, exists avisos datos,
        leer_csv B ruta = (avisos, Ok datos) /\
        forall fila campo,
          In fila datos -> In campo CAMPOS_NUMERICOS_CLAVE ->
          exists x, dict_get String.eqb fila campo = Some (VNum x) /\
                    (0 <=? x)%float = true) /\
    (forall lector, exists avisos,
        leer_csv B (Existe lector) =
        (avisos, Ok (if lectura_completa lector
                     then map (registro_de B) (filas_de lector)
                     else []))) /\
    (forall cruda campo,
        In campo CAMPOS_NUMERICOS_CLAVE ->
        dict_get String.eqb (registro_de B cruda) campo =
        Some (VNum (limpiar_segun_spec B (valor_crudo cruda campo)))) /\
    (forall v,
        v = VNone \/ py_float B (replace_coma_punto (py_str B v)) = None ->
        limpiar_segun_spec B v = 0%float) /\
    (forall repr, exists datos,
        leer_csv (ascii_builtins repr) (Existe (lectura_de DATOS_SIN_REGION)) =
        ([], Ok datos) /\
        map (fun fila => map (numero_de fila) CAMPOS_NUMERICOS_CLAVE) datos =
        [[12.5; 0; 0; 0]; [0; 0; 0; 0]]%float).
Proof.
  intros B. split; [|split; [|split; [|split]]].
  - intros ruta. destruct (leer_csv_limpio B ruta) as (avisos & ds & H & Hl).
    exists avisos, ds. split; [exact H|]. intros fila campo Hf Hc.
    rewrite Forall_forall in Hl. destruct (Hl fila Hf) as (_ & Hnum & _).
    exact (Hnum campo Hc).
  - apply leer_csv_exacto.
  - intros cruda campo. apply dict_get_registro_de.
  - intros v [->|H]; [reflexivity|].
    destruct v; simpl in *; try reflexivity; now rewrite H.
  - intros repr. eexists. split; vm_compute; reflexivity.
Qed.

(** C2. The cleaning function returns what the specification words: [0.0]
    for [None]; otherwise the text of the value, its commas replaced by
    periods, is parsed, a failure giving [0.0] and a number [num] giving
    [max(0.0, num)], which is [0.0] or [num], is never negative and is never
    below [num].  So a negative number is clamped to [0.0], and a text
    cleans to the same value as the text with periods for its commas. *)
Theorem C2_limpiar_valor_numerico :
  (forall (B : Builtins) (v : valor),
      _limpiar_valor_numerico B v = Ok (limpiar_segun_spec B v)) /\
  (forall num : float,
      (PyFloat.py_max 0 num = 0%float \/ PyFloat.py_max 0 num = num) /\
      (0 <=? PyFloat.py_max 0 num)%float = true /\
      ((num <=? num)%float = true -> (num <=? PyFloat.py_max 0 num)%float = true)) /\
  (forall (B : Builtins) (s : string) (num : float),
      py_float B (replace_coma_punto s) = Some num ->
      (num <? 0)%float = true ->
      _limpiar_valor_numerico B (VStr s) = Ok 0%float) /\
  (forall (B : Builtins) (s : string),
      _limpiar_valor_numerico B (VStr s) =
      _limpiar_valor_numerico B (VStr (replace_coma_punto s))) /\
  (forall repr,
      map (_limpiar_valor_numerico (ascii_builtins repr))
        [VNone; VStr "1000.00"; VStr "12,5"; VStr "12.5"; VStr "-10.00";
         VStr "NO_NUM"; VStr "1,000.50"; VStr ""; VStr "nan"; VStr "-0.0"] =
      map Ok [0; 1000; 12.5; 12.5; 0; 0; 0; 0; 0; 0]%float).
Proof.
  split; [|split; [|split; [|split]]].
  - intros B v. apply limpiar_valor_numerico_ok.
  - intros num. split; [|split].
    + destruct (py_max_cero_casos num) as [[-> _]|[-> _]]; auto.
    + apply py_max_cero_no_negativo.
    + intros Hnum. destruct (py_max_cero_casos num) as [[-> H]|[-> _]]; [|exact Hnum].
      revert Hnum H. rewrite !leb_spec, ltb_spec, Prim2SF_cero.
      destruct (Prim2SF num) as [[]|[]| |[] m e]; unfold SFleb, SFltb; simpl;
        congruence.
  - intros B s num H Hneg. rewrite limpiar_valor_numerico_ok. simpl. rewrite H.
    unfold PyFloat.py_max.
    assert (E : (0 <? num)%float = false).
    { revert Hneg. rewrite !ltb_spec, Prim2SF_cero.
      destruct (Prim2SF num) as [[]|[]| |[] m e]; unfold SFltb; simpl; congruence. }
    now rewrite E.
  - intros B s. rewrite !limpiar_valor_numerico_ok. simpl.
    assert (E : forall t, replace_coma_punto (replace_coma_punto t) = replace_coma_punto t).
    { induction t as [|c t IH]; simpl; [reflexivity|]. rewrite IH.
      destruct (Ascii.eqb_spec c ","); [reflexivity|].
      destruct (Ascii.eqb_spec c ","); [contradiction|reflexivity]. }
    now rewrite E.
  - intros repr. vm_compute. reflexivity.
Qed.

(** ** The queries *)

(** C3. On loaded records the totals by region are a dict that holds, for
    each region, the sum of TOTAL_VENTAS over the records of the region,
    added in input order; a region is a key exactly when a record has it,
    every key is the region of a record, and no key repeats.  On the data
    of the tests the dict is PICHINCHA 1500, GUAYAS 2100, AZUAY 3000,
    IMBABURA 0. *)
Theorem C3_ventas_totales_por_provincia :
  (forall (B : Builtins) (ruta : archivo),
      exists avisos self totales,
        __init__ B ruta = (avisos, Ok self) /\
        Forall (limpio B) (datos self) /\
        ventas_totales_por_provincia self = Ok totales /\
        (forall k,
            dict_get valor_eqb totales (VStr k) =
            if hay "PROVINCIA" (datos self) k
            then Some (suma_por "PROVINCIA" "TOTAL_VENTAS" (datos self) k)
            else None) /\
        (forall key, In key (dict_keys totales) <->
                     exists k, key = VStr k /\ hay "PROVINCIA" (datos self) k = true) /\
        NoDup (dict_keys totales)) /\
  (forall repr, exists self,
      __init__ (ascii_builtins repr) MOCK_FILE = ([], Ok self) /\
      ventas_totales_por_provincia self =
      Ok [(VStr "PICHINCHA", 1500%float); (VStr "GUAYAS", 2100%float);
          (VStr "AZUAY", 3000%float); (VStr "IMBABURA", 0%float)]).
Proof.
  split.
  - intros B ruta. destruct (init_limpio B ruta) as (avisos & self & H & _ & Hl).
    exists avisos, self, (agrupado "PROVINCIA" "TOTAL_VENTAS" (datos self) []).
    split; [exact H|]. split; [exact Hl|]. split; [exact (ventas_totales_agrupado B self Hl)|].
    split; [apply dict_get_agrupado|].
    destruct (dict_keys_agrupado "PROVINCIA" "TOTAL_VENTAS" (datos self)) as [H1 H2].
    split; assumption.
  - intros repr. eexists. split; vm_compute; reflexivity.
Qed.

(** C4. On loaded records the region with the most imports is found among
    the records whose region is not empty.  When there is none the result
    is [(None, 0.0)].  Otherwise it is a region [p] with the sum of its
    IMPORTACIONES, and [p] is the region of a record [r] such that every
    record before [r] belongs to a region with a strictly smaller sum and
    every record after [r] to a region whose sum is not greater: the sum
    of [p] is maximal, and among the regions with the maximal sum [p] is
    the one met first in the input. *)
Theorem C4_provincia_con_mas_importaciones :
  (forall (B : Builtins) (ruta : archivo),
      exists avisos self,
        __init__ B ruta = (avisos, Ok self) /\
        Forall (limpio B) (datos self) /\
        let suma := suma_por "PROVINCIA" "IMPORTACIONES" (datos self) in
        let con_region := con_clave "PROVINCIA" (datos self) in
        (con_region = [] ->
         provincia_con_mas_importaciones self = Ok (VNone, 0%float)) /\
        (con_region <> [] ->
         exists p antes r despues,
           provincia_con_mas_importaciones self = Ok (VStr p, suma p) /\
           p <> "" /\
           con_region = antes ++ r :: despues /\
           texto_de r "PROVINCIA" = p /\
           (forall f, In f antes ->
                      (suma (texto_de f "PROVINCIA") <? suma p)%float = true) /\
           (forall f, In f despues ->
                      (suma (texto_de f "PROVINCIA") <=? suma p)%float = true))) /\
  (forall repr,
      let B := ascii_builtins repr in
      exists mock empate inverso vacio,
        __init__ B MOCK_FILE = ([], Ok mock) /\
        provincia_con_mas_importaciones mock = Ok (VStr "GUAYAS", 1300%float) /\
        __init__ B (Existe (lectura_de DATOS_EMPATE)) = ([], Ok empate) /\
        provincia_con_mas_importaciones empate = Ok (VStr "GUAYAS", 500%float) /\
        __init__ B (Existe (lectura_de DATOS_EMPATE_INVERSO)) = ([], Ok inverso) /\
        provincia_con_mas_importaciones inverso = Ok (VStr "AZUAY", 500%float) /\
        __init__ B NoExiste = ([Advertencia_no_encontrado], Ok vacio) /\
        provincia_con_mas_importaciones vacio = Ok (VNone, 0%float)).
Proof.
  split.
  - intros B ruta. destruct (init_limpio B ruta) as (avisos & self & H & _ & Hl).
    exists avisos, self. split; [exact H|]. split; [exact Hl|].
    exact (importaciones_maximo_spec B self Hl).
  - intros repr B. do 4 eexists. repeat split; vm_compute; reflexivity.
Qed.

(** C5. The total of one region is the value the totals by region hold
    under the upper-cased name, and [0.0] when they hold none; so it is
    [0.0] for every name whose upper-cased form is the region of no
    record. *)
Theorem C5_ventas_por_provincia :
  (forall (B : Builtins) (ruta : archivo),
      exists avisos self totales,
        __init__ B ruta = (avisos, Ok self) /\
        Forall (limpio B) (datos self) /\
        ventas_totales_por_provincia self = Ok totales /\
        forall nombre,
          ventas_por_provincia B self nombre =
          Ok (match dict_get valor_eqb totales (VStr (py_upper B nombre)) with
              | Some total => total
              | None => 0%float
              end) /\
          (hay "PROVINCIA" (datos self) (py_upper B nombre) = false ->
           dict_get valor_eqb totales (VStr (py_upper B nombre)) = None /\
           ventas_por_provincia B self nombre = Ok 0%float)) /\
  (forall repr, exists self,
      __init__ (ascii_builtins repr) MOCK_FILE = ([], Ok self) /\
      map (ventas_por_provincia (ascii_builtins repr) self)
        ["PICHINCHA"; "guayas"; "Azuay"; "IMBABURA"; "NARNIA_NO_EXISTE"] =
      map Ok [1500; 2100; 3000; 0; 0]%float).
Proof.
  split.
  - intros B ruta. destruct (init_limpio B ruta) as (avisos & self & H & _ & Hl).
    exists avisos, self, (agrupado "PROVINCIA" "TOTAL_VENTAS" (datos self) []).
    split; [exact H|]. split; [exact Hl|]. split; [exact (ventas_totales_agrupado B self Hl)|].
    intros nombre. unfold ventas_por_provincia.
    rewrite (ventas_totales_agrupado B self Hl). simpl bind. split; [reflexivity|].
    intros Hno. unfold dict_get_or. rewrite dict_get_agrupado, Hno. auto.
  - intros repr. eexists. split; vm_compute; reflexivity.
Qed.

(** C6. On loaded records the percentages hold an entry for each region
    that is not empty: [0.0] when the sum of its TOTAL_VENTAS is [0.0], and
    otherwise the sum of its VENTAS_NETAS_TARIFA_0 divided by that sum,
    times 100.  The query returns: no division by zero is raised. *)
Theorem C6_porcentaje_ventas_tarifa_cero :
  (forall (B : Builtins) (ruta : archivo),
      exists avisos self porcentajes,
        __init__ B ruta = (avisos, Ok self) /\
        Forall (limpio B) (datos self) /\
        porcentaje_ventas_tarifa_cero self = Ok porcentajes /\
        (forall k,
            dict_get valor_eqb porcentajes (VStr k) =
            if negb (String.eqb k "") && hay "PROVINCIA" (datos self) k
            then Some (let total := suma_por "PROVINCIA" "TOTAL_VENTAS" (datos self) k in
                       let cero :=
                         suma_por "PROVINCIA" "VENTAS_NETAS_TARIFA_0" (datos self) k in
                       if (total =? 0)%float then 0%float
                       else (cero / total * 100)%float)
            else None) /\
        (forall key, In key (dict_keys porcentajes) <->
                     exists k, key = VStr k /\ k <> "" /\
                               hay "PROVINCIA" (datos self) k = true)) /\
  (forall repr,
      let B := ascii_builtins repr in
      exists mock otro,
        __init__ B MOCK_FILE = ([], Ok mock) /\
        ventas_por_provincia B mock "IMBABURA" = Ok 0%float /\
        porcentaje_ventas_tarifa_cero mock =
        Ok [(VStr "PICHINCHA", 0%float); (VStr "GUAYAS", 0%float);
            (VStr "AZUAY", 0%float); (VStr "IMBABURA", 0%float)] /\
        __init__ B (Existe (lectura_de DATOS_REGION_VACIA)) = ([], Ok otro) /\
        porcentaje_ventas_tarifa_cero otro = Ok [(VStr "AZUAY", 25%float)]).
Proof.
  split.
  - intros B ruta. destruct (init_limpio B ruta) as (avisos & self & H & _ & Hl).
    destruct (porcentaje_spec B self Hl) as (porcentajes & H1 & H2 & H3).
    exists avisos, self, porcentajes. auto.
  - intros repr B. do 2 eexists. repeat split; vm_compute; reflexivity.
Qed.

(** C7. The exports by month hold, for each month that is not empty, the
    sum of EXPORTACIONES over the records of the month; the records whose
    month is absent, [None] or empty are in no entry: every key is the
    non-empty month of a record, and the result is that of the records
    with a month alone.  On the four rows of the example the dict
    is month 01: 700, month 02: 1000. *)
Theorem C7_exportaciones_totales_por_mes :
  (forall (B : Builtins) (ruta : archivo),
      exists avisos self exportaciones,
        __init__ B ruta = (avisos, Ok self) /\
        Forall (limpio B) (datos self) /\
        exportaciones_totales_por_mes self = Ok exportaciones /\
        (forall mes,
            dict_get valor_eqb exportaciones (VStr mes) =
            if negb (String.eqb mes "") && hay "MES" (datos self) mes
            then Some (suma_por "MES" "EXPORTACIONES" (datos self) mes)
            else None) /\
        (forall key, In key (dict_keys exportaciones) <->
                     exists mes, key = VStr mes /\ mes <> "" /\
                                 hay "MES" (datos self) mes = true) /\
        NoDup (dict_keys exportaciones) /\
        exportaciones_totales_por_mes self =
        exportaciones_totales_por_mes {| datos := con_clave "MES" (datos self) |}) /\
  (forall repr, exists self,
      __init__ (ascii_builtins repr) (Existe (lectura_de MOCK_EXPORTACIONES)) =
      ([], Ok self) /\
      exportaciones_totales_por_mes self =
      Ok [(VStr "01", 700%float); (VStr "02", 1000%float)]) /\
  (forall repr, exists self,
      __init__ (ascii_builtins repr) (Existe (lectura_de DATOS_SIN_REGION)) =
      ([], Ok self) /\
      map (fun fila => dict_get String.eqb fila "MES") (datos self) =
      [Some (VStr "01"); Some (VStr "")] /\
      exportaciones_totales_por_mes self = Ok [(VStr "01", 0%float)]).
Proof.
  split; [|split].
  - intros B ruta. destruct (init_limpio B ruta) as (avisos & self & H & _ & Hl).
    exists avisos, self,
      (agrupado "MES" "EXPORTACIONES" (con_clave "MES" (datos self)) []).
    split; [exact H|]. split; [exact Hl|]. split; [exact (exportaciones_agrupado B self Hl)|].
    destruct (dict_keys_agrupado "MES" "EXPORTACIONES" (con_clave "MES" (datos self)))
      as [H1 H2].
    split; [|split; [|split; [exact H1|]]].
    + intros mes. rewrite dict_get_agrupado, hay_con_clave.
      destruct (String.eqb_spec mes ""); simpl; [reflexivity|].
      now rewrite suma_por_con_clave.
    + intros key. rewrite H2. split; intros (mes & -> & Hm); exists mes.
      * rewrite hay_con_clave in Hm. apply andb_prop in Hm. destruct Hm as [Hm1 Hm2].
        destruct (String.eqb_spec mes ""); [discriminate|auto].
      * destruct Hm as [Hm1 Hm2]. rewrite hay_con_clave, Hm2.
        destruct (String.eqb_spec mes ""); [contradiction|auto].
    + rewrite (exportaciones_agrupado B self Hl).
      rewrite (exportaciones_agrupado B {| datos := con_clave "MES" (datos self) |}
                 (con_clave_limpio B self Hl "MES")).
      simpl datos. now rewrite con_clave_con_clave.
  - intros repr. eexists. split; vm_compute; reflexivity.
  - intros repr. eexists. split; [|split]; vm_compute; reflexivity.
Qed.

(** ** Loading, again *)

(** C8. Loading never fails: a missing file gives the warning and no
    record; a reading that breaks off ([open] refused, an undecodable byte,
    a malformed line) gives one error notice and no record; and whatever
    the path resolves to, [leer_csv] and the constructor return. *)
Theorem C8_carga_sin_excepciones :
  forall B : Builtins,
    leer_csv B NoExiste = ([Advertencia_no_encontrado], Ok []) /\
    (forall e, leer_csv B (Existe (Falla e)) = ([Error_lectura e], Ok [])) /\
    (forall lector,
        termina_en_falla lector = true ->
        exists e, leer_csv B (Existe lector) = ([Error_lectura e], Ok [])) /\
    (forall ruta, exists avisos datos, leer_csv B ruta = (avisos, Ok datos)) /\
    (forall ruta, exists avisos self, __init__ B ruta = (avisos, Ok self)).
Proof.
  intros B. split; [reflexivity|]. split; [reflexivity|]. split; [|split].
  - intros lector H. apply termina_en_falla_incompleta in H.
    pose proof (leer_filas_exacto B lector []) as Hl. rewrite H in Hl.
    destruct Hl as [e He]. exists e. simpl. now rewrite He.
  - intros ruta. destruct (leer_csv_limpio B ruta) as (avisos & ds & H & _). eauto.
  - intros ruta. destruct (init_limpio B ruta) as (avisos & self & H & _). eauto.
Qed.

(** What the loop does with the region of a row it gets through: a row
    whose dict has no region key becomes a record under the upper-cased
    default, a row whose region is a text one under its upper-cased region;
    every retained record carries an upper-cased text as its region; and in
    a complete reading each row is retained as that record.  A file without
    a region column loads with every record under DESCONOCIDA. *)
Lemma provincia_en_mayusculas :
  forall B : Builtins,
    (forall cruda,
        dict_get String.eqb cruda "PROVINCIA" = None ->
        exists fila,
          limpiar_fila B (fila_de_lector cruda) = Ok fila /\
          dict_get String.eqb fila "PROVINCIA" =
          Some (VStr (py_upper B "DESCONOCIDA"))) /\
    (forall cruda s,
        dict_get String.eqb cruda "PROVINCIA" = Some (Some s) ->
        exists fila,
          limpiar_fila B (fila_de_lector cruda) = Ok fila /\
          dict_get String.eqb fila "PROVINCIA" = Some (VStr (py_upper B s))) /\
    (forall ruta, exists avisos datos,
        leer_csv B ruta = (avisos, Ok datos) /\
        forall fila, In fila datos ->
          exists s, dict_get String.eqb fila "PROVINCIA" = Some (VStr (py_upper B s))) /\
    (forall lector,
        lectura_completa lector = true ->
        exists avisos,
          leer_csv B (Existe lector) = (avisos, Ok (map (registro_de B) (filas_de lector))) /\
          forall cruda, In cruda (filas_de lector) ->
            dict_get String.eqb (registro_de B cruda) "PROVINCIA" =
            Some (VStr (py_upper B (region_o_defecto cruda)))) /\
    (forall repr, exists datos,
        leer_csv (ascii_builtins repr) (Existe (lectura_de DATOS_SIN_REGION)) =
        ([], Ok datos) /\
        map (fun fila => dict_get String.eqb fila "PROVINCIA") datos =
        [Some (VStr "DESCONOCIDA"); Some (VStr "DESCONOCIDA")]).
Proof.
  intros B. split; [|split; [|split; [|split]]].
  - intros cruda H. rewrite limpiar_fila_de_lector, H. eexists. split; [reflexivity|].
    now rewrite dict_get_fila_limpia.
  - intros cruda s H. rewrite limpiar_fila_de_lector, H. eexists. split; [reflexivity|].
    now rewrite dict_get_fila_limpia.
  - intros ruta. destruct (leer_csv_limpio B ruta) as (avisos & ds & H & Hl).
    exists avisos, ds. split; [exact H|]. intros fila Hf.
    rewrite Forall_forall in Hl. now destruct (Hl fila Hf) as (Hp & _).
  - intros lector H. destruct (leer_csv_exacto B lector) as [avisos E].
    rewrite H in E. exists avisos. split; [exact E|].
    intros cruda _. apply dict_get_registro_de_provincia.
  - intros repr. eexists. split; vm_compute; reflexivity.
Qed.

(** C9. Where the loop departs from the claim.  [csv.DictReader] gives a
    line that stops before the region column the region [None]: the key is
    there, so [fila.get("PROVINCIA", "DESCONOCIDA")] does not take the
    default, [None.upper()] raises [AttributeError], and [leer_csv] prints
    it and returns no record.  Such a row is not retained under
    DESCONOCIDA, and the rows read before it are lost with it.  The sibling
    path does take the [None] of a short line: a row that stops before
    TOTAL_VENTAS is retained with [0.0]. *)
Theorem C9_region_None_no_se_retiene :
  forall B : Builtins,
    (forall cruda,
        dict_get String.eqb cruda "PROVINCIA" = Some None ->
        limpiar_fila B (fila_de_lector cruda) = Raise AttributeError) /\
    dict_get String.eqb FILA_CORTA "PROVINCIA" = Some None /\
    leer_csv B (Existe (lectura_de [FILA_CORTA])) =
    ([Error_lectura AttributeError], Ok []) /\
    leer_csv B (Existe (lectura_de (DATOS_SIN_REGION ++ [FILA_CORTA]))) =
    ([Error_lectura AttributeError], Ok []) /\
    (exists fila,
        leer_csv B (Existe (lectura_de [FILA_SIN_TOTAL])) = ([], Ok [fila]) /\
        dict_get String.eqb FILA_SIN_TOTAL "TOTAL_VENTAS" = Some None /\
        dict_get String.eqb fila "TOTAL_VENTAS" = Some (VNum 0%float) /\
        dict_get String.eqb fila "PROVINCIA" = Some (VStr (py_upper B "LOJA"))).
Proof.
  intros B. split; [|split; [reflexivity|split; [|split]]].
  - intros cruda H. now rewrite limpiar_fila_de_lector, H.
  - unfold leer_csv, FILA_CORTA. cbn [lectura_de fold_right leer_filas].
    rewrite limpiar_fila_de_lector. reflexivity.
  - unfold leer_csv, DATOS_SIN_REGION, FILA_CORTA.
    cbn [lectura_de fold_right app leer_filas].
    repeat (rewrite limpiar_fila_de_lector;
            cbn [dict_get String.eqb Ascii.eqb Bool.eqb bind leer_filas]).
    reflexivity.
  - destruct (leer_csv_exacto B (lectura_de [FILA_SIN_TOTAL])) as [avisos E].
    exists (registro_de B FILA_SIN_TOTAL). split; [|split; [reflexivity|split]].
    + unfold leer_csv in *. cbn [lectura_de fold_right leer_filas] in *.
      rewrite limpiar_fila_de_lector in *.
      cbn [dict_get String.eqb Ascii.eqb Bool.eqb bind leer_filas app FILA_SIN_TOTAL] in *.
      reflexivity.
    + rewrite dict_get_registro_de by (simpl; auto). reflexivity.
    + apply dict_get_registro_de_provincia.
Qed.

(** C10. A loaded record whose region is the empty text is summed by the
    totals by region, under the key [""], and the total of one region
    returns that sum for a name whose upper-cased form is empty; but the
    region with the most imports and the percentages are those of the
    records whose region is not empty, and neither returns the empty
    region as a key. *)
Theorem C10_region_vacia :
  (forall (B : Builtins) (ruta : archivo),
      exists avisos self totales porcentajes,
        __init__ B ruta = (avisos, Ok self) /\
        Forall (limpio B) (datos self) /\
        ventas_totales_por_provincia self = Ok totales /\
        porcentaje_ventas_tarifa_cero self = Ok porcentajes /\
        (hay "PROVINCIA" (datos self) "" = true ->
         dict_get valor_eqb totales (VStr "") =
         Some (suma_por "PROVINCIA" "TOTAL_VENTAS" (datos self) "") /\
         forall nombre,
           py_upper B nombre = "" ->
           ventas_por_provincia B self nombre =
           Ok (suma_por "PROVINCIA" "TOTAL_VENTAS" (datos self) "")) /\
        provincia_con_mas_importaciones self =
        provincia_con_mas_importaciones
          {| datos := con_clave "PROVINCIA" (datos self) |} /\
        porcentaje_ventas_tarifa_cero self =
        porcentaje_ventas_tarifa_cero
          {| datos := con_clave "PROVINCIA" (datos self) |} /\
        (forall total, provincia_con_mas_importaciones self <> Ok (VStr "", total)) /\
        dict_get valor_eqb porcentajes (VStr "") = None /\
        ~ In (VStr "") (dict_keys porcentajes)) /\
  (forall repr,
      let B := ascii_builtins repr in
      exists self,
        __init__ B (Existe (lectura_de DATOS_REGION_VACIA)) = ([], Ok self) /\
        map (fun fila => (texto_de fila "PROVINCIA", numero_de fila "IMPORTACIONES"))
          (datos self) = [("", 900%float); ("AZUAY", 10%float)] /\
        ventas_totales_por_provincia self =
        Ok [(VStr "", 100%float); (VStr "AZUAY", 300%float)] /\
        ventas_por_provincia B self "" = Ok 100%float /\
        provincia_con_mas_importaciones self = Ok (VStr "AZUAY", 10%float) /\
        porcentaje_ventas_tarifa_cero self = Ok [(VStr "AZUAY", 25%float)]).
Proof.
  split.
  - intros B ruta. destruct (init_limpio B ruta) as (avisos & self & H & _ & Hl).
    destruct (porcentaje_spec B self Hl) as (porcentajes & H1 & H2 & H3).
    exists avisos, self, (agrupado "PROVINCIA" "TOTAL_VENTAS" (datos self) []), porcentajes.
    pose proof (ventas_totales_agrupado B self Hl) as Ht.
    pose proof (con_clave_limpio B self Hl "PROVINCIA") as Hc.
    split; [exact H|]. split; [exact Hl|]. split; [exact Ht|]. split; [exact H1|].
    split; [|split; [|split; [|split; [|split]]]].
    + intros Hv. split.
      * now rewrite dict_get_agrupado, Hv.
      * intros nombre Hn. unfold ventas_por_provincia. rewrite Ht, Hn. simpl bind.
        unfold dict_get_or. now rewrite dict_get_agrupado, Hv.
    + rewrite (importaciones_maximo B self Hl).
      rewrite (importaciones_maximo B {| datos := con_clave "PROVINCIA" (datos self) |} Hc).
      simpl datos. now rewrite con_clave_con_clave.
    + rewrite (porcentaje_agrupado B self Hl).
      rewrite (porcentaje_agrupado B {| datos := con_clave "PROVINCIA" (datos self) |} Hc).
      simpl datos. now rewrite con_clave_con_clave.
    + intros total E.
      destruct (importaciones_maximo_spec B self Hl) as [Hvacio Hlleno].
      destruct (con_clave "PROVINCIA" (datos self)) as [|f fs] eqn:Ec.
      * rewrite (Hvacio eq_refl) in E. discriminate.
      * destruct Hlleno as (p & antes & r & despues & E1 & Hp & _); [discriminate|].
        rewrite E1 in E. injection E as E _. congruence.
    + now rewrite H2.
    + rewrite H3. intros (k & [= <-] & Hk & _). congruence.
  - intros repr B. eexists. repeat split; vm_compute; reflexivity.
Qed.

(** * Further properties of the code *)

From Stdlib Require Import Permutation.

(** ** Floats: quotients and products *)

Section CocienteFacts.
Local Open Scope float_scope.

(** A NaN, or a float that is not negative: what [x < 0.0] refuses. *)
Lemma ltb_cero_false_sf a :
  (a <? 0) = false <->
  match Prim2SF a with
  | S754_nan => True
  | x => PyFloat.sf_no_negativo x = true
  end.
Proof.
  rewrite ltb_spec, Prim2SF_cero.
  destruct (Prim2SF a) as [[]|[]| |[] m e]; unfold SFltb; simpl; intuition congruence.
Qed.

Lemma SFdiv_no_negativo x y :
  PyFloat.sf_no_negativo x = true -> SFltb (S754_zero false) y = true ->
  match SFdiv prec emax x y with
  | S754_nan => True
  | z => PyFloat.sf_no_negativo z = true
  end.
Proof.
  destruct x as [[]|[]| |[] mx ex], y as [[]|[]| |[] my ey]; unfold SFltb; simpl;
    try congruence; try tauto.
  intros _ _. unfold SFdiv_core_binary.
  match goal with
  | |- context [Z.div_eucl ?a ?b] =>
      assert (H : (0 <= fst (Z.div_eucl a b))%Z);
      [ change (fst (Z.div_eucl a b)) with (a / b)%Z; apply Z.div_pos; [|lia]
      | destruct (Z.div_eucl a b) as [q r] ]
  end.
  - match goal with
    | |- (0 <= match ?s with _ => _ end)%Z => destruct s eqn:Es; try lia
    end.
    apply Z.shiftl_nonneg. lia.
  - simpl in H.
    match goal with
    | |- context [binary_round_aux prec emax false q ?e ?l] =>
        pose proof (binary_round_aux_no_negativo q e l H) as Hr;
        destruct (binary_round_aux prec emax false q e l); simpl in *; auto
    end.
Qed.

Lemma SFmul_no_negativo x y :
  match x with S754_nan => True | _ => PyFloat.sf_no_negativo x = true end ->
  PyFloat.sf_no_negativo y = true ->
  match SFmul prec emax x y with
  | S754_nan => True
  | z => PyFloat.sf_no_negativo z = true
  end.
Proof.
  destruct x as [[]|[]| |[] mx ex], y as [[]|[]| |[] my ey]; simpl;
    try congruence; try tauto.
  intros _ _.
  pose proof (binary_round_aux_no_negativo (Z.pos (mx * my)) (ex + ey) loc_Exact) as Hr.
  destruct (binary_round_aux _ _ _ _ _ _); simpl in *; auto; apply Hr; lia.
Qed.

(** A float that is not negative over a positive one, times 100, is not
    below zero (it is a NaN when both are infinite). *)
Lemma porcentaje_no_negativo a b :
  PyFloat.no_negativo a -> (0 <? b) = true -> (a / b * 100 <? 0) = false.
Proof.
  rewrite no_negativo_sf, ltb_cero_false_sf, mul_spec, div_spec.
  rewrite (ltb_spec 0 b), Prim2SF_cero. intros Ha Hb.
  apply SFmul_no_negativo; [|reflexivity].
  pose proof (SFdiv_no_negativo _ _ Ha Hb) as H. unfold SF64div.
  destruct (SFdiv prec emax (Prim2SF a) (Prim2SF b)); auto.
Qed.

(** Zero divided by a positive float, times 100, is zero. *)
Lemma porcentaje_de_cero b :
  (0 <? b) = true -> 0 / b * 100 = 0.
Proof.
  intros H. apply Prim2SF_inj. rewrite mul_spec, div_spec, Prim2SF_cero.
  revert H. rewrite ltb_spec, Prim2SF_cero.
  destruct (Prim2SF b) as [[]|[]| |[] m e]; unfold SFltb; simpl; try discriminate;
    intros _; reflexivity.
Qed.

Lemma fold_add_ceros l :
  Forall (fun x => x = 0) l -> fold_left PrimFloat.add l 0 = 0.
Proof.
  induction 1 as [|x l -> _ IH]; simpl; [reflexivity|]. exact IH.
Qed.

(** A cleaned value is [+0.0] or positive. *)
Lemma limpiar_segun_spec_casos B v :
  limpiar_segun_spec B v = 0 \/ (0 <? limpiar_segun_spec B v) = true.
Proof.
  destruct v as [|s|x]; simpl; auto;
    destruct (py_float B _) as [num|]; auto;
    destruct (py_max_cero_casos num) as [[-> _]|[-> H]]; auto.
Qed.
End CocienteFacts.

(** ** Entries and keys of a grouped sum *)

Section EntradasFacts.
Local Open Scope float_scope.

Lemma dict_get_entrada {V} (d : dict (K := valor) (V := V)) k v :
  NoDup (dict_keys d) -> In (VStr k, v) d -> dict_get valor_eqb d (VStr k) = Some v.
Proof.
  induction d as [|[k0 v0] d IH]; simpl; [tauto|]. intros Hnd [E|Hin].
  - injection E as -> ->. simpl. now rewrite String.eqb_refl.
  - inversion Hnd as [|? ? Hk0 Hd]; subst.
    destruct (valor_eqb k0 (VStr k)) eqn:E; [|auto].
    apply clave_legal_texto in E. subst k0. elim Hk0.
    apply (in_map fst) in Hin. exact Hin.
Qed.

Variables clave campo : string.

(** An entry of a grouped sum is a group with a record and its sum. *)
Lemma entrada_agrupado filas key v :
  In (key, v) (agrupado clave campo filas []) ->
  exists k, key = VStr k /\ hay clave filas k = true /\
            v = suma_por clave campo filas k.
Proof.
  intros Hin. destruct (dict_keys_agrupado clave campo filas) as [Hnd Hkeys].
  assert (Hk : In key (dict_keys (agrupado clave campo filas []))).
  { apply (in_map fst) in Hin. exact Hin. }
  apply Hkeys in Hk. destruct Hk as (k & -> & Hk). exists k.
  split; [reflexivity|]. split; [exact Hk|].
  apply (dict_get_entrada _ _ _ Hnd) in Hin.
  rewrite dict_get_agrupado, Hk in Hin. now injection Hin.
Qed.

Lemma en_acumular d k x k' :
  en (acumular d k x) k' = String.eqb k k' || en d k'.
Proof.
  unfold en. rewrite dict_get_acumular. now destruct (String.eqb k k').
Qed.

Lemma filter_filter {A} (f g : A -> bool) l :
  filter f (filter g l) = filter (fun x => f x && g x) l.
Proof.
  induction l as [|x l IH]; simpl; [reflexivity|].
  destruct (g x); simpl; [destruct (f x); simpl; now rewrite IH|].
  rewrite andb_false_r. exact IH.
Qed.

(** The keys a grouped sum adds to a dict: the first occurrences of the
    groups that are not yet keys, in input order. *)
Lemma dict_keys_agrupado_orden filas :
  forall d,
    dict_keys (agrupado clave campo filas d) =
    dict_keys d ++
    map VStr (filter (fun k => negb (en d k))
                (primeras (map (fun fila => texto_de fila clave) filas))).
Proof.
  unfold agrupado. induction filas as [|r filas IH]; intros d; simpl.
  - now rewrite app_nil_r.
  - rewrite IH, dict_keys_acumular, filter_filter. unfold en at 2.
    destruct (dict_get valor_eqb d (VStr (texto_de r clave))) as [a|] eqn:E; simpl.
    + f_equal. f_equal. apply filter_ext. intros k. rewrite en_acumular.
      destruct (String.eqb_spec (texto_de r clave) k) as [<-|Hk]; simpl.
      * unfold en. now rewrite E.
      * destruct (String.eqb_spec k (texto_de r clave)); [congruence|].
        now rewrite andb_true_r.
    + rewrite <- app_assoc. simpl. f_equal. f_equal. f_equal.
      apply filter_ext. intros k. rewrite en_acumular.
      destruct (String.eqb_spec (texto_de r clave) k) as [<-|Hk]; simpl.
      * now rewrite String.eqb_refl, andb_false_r.
      * destruct (String.eqb_spec k (texto_de r clave)); [congruence|].
        now rewrite andb_true_r.
Qed.

Lemma dict_keys_agrupado_primeras filas :
  dict_keys (agrupado clave campo filas []) =
  map VStr (primeras (map (fun fila => texto_de fila clave) filas)).
Proof.
  rewrite dict_keys_agrupado_orden. simpl. f_equal.
  induction (primeras _) as [|k l IH]; simpl; [reflexivity|]. now rewrite IH.
Qed.

(** As many keys as distinct groups. *)
Lemma length_dict_keys_agrupado filas :
  List.length (dict_keys (agrupado clave campo filas [])) =
  List.length (nodup string_dec (map (fun fila => texto_de fila clave) filas)).
Proof.
  destruct (dict_keys_agrupado clave campo filas) as [Hnd Hkeys].
  rewrite <- (length_map VStr (nodup _ _)).
  apply Permutation_length, NoDup_Permutation; [exact Hnd| |].
  - apply Finite.Injective_map_NoDup; [|apply NoDup_nodup].
    intros a b H. now injection H.
  - intros key. rewrite Hkeys, in_map_iff. split.
    + intros (k & -> & Hk). exists k. split; [reflexivity|].
      apply nodup_In. unfold hay in Hk. apply existsb_exists in Hk.
      destruct Hk as (f & Hf & E). apply String.eqb_eq in E. subst k.
      apply in_map_iff. eauto.
    + intros (k & <- & Hk). exists k. split; [reflexivity|].
      apply nodup_In, in_map_iff in Hk. destruct Hk as (f & <- & Hf).
      now apply hay_In.
Qed.
End EntradasFacts.

(** ** From the rows of the file to the records *)

Section ArchivoFacts.
Variable B : Builtins.
Local Open Scope float_scope.

(** The analyser of a file that exists. *)
Lemma init_exacto lector :
  exists avisos,
    __init__ B (Existe lector) =
    (avisos,
     Ok {| datos := if lectura_completa lector
                    then map (registro_de B) (filas_de lector)
                    else [] |}).
Proof.
  destruct (leer_csv_exacto B lector) as [avisos E].
  exists avisos. unfold __init__. now rewrite E.
Qed.

Lemma registro_de_limpio cruda : limpio B (registro_de B cruda).
Proof. apply fila_limpia_limpio. Qed.


Lemma numero_de_registro_de cruda campo :
  In campo CAMPOS_NUMERICOS_CLAVE ->
  numero_de (registro_de B cruda) campo =
  limpiar_segun_spec B (valor_crudo cruda campo).
Proof. intros H. unfold numero_de. now rewrite dict_get_registro_de. Qed.

(** The columns the loop does not write. *)
Lemma dict_get_registro_de_otra cruda k :
  k <> "PROVINCIA" -> ~ In k CAMPOS_NUMERICOS_CLAVE ->
  dict_get String.eqb (registro_de B cruda) k =
  option_map valor_de_texto (dict_get String.eqb cruda k).
Proof.
  intros Hp Hc. unfold registro_de. rewrite dict_get_fila_limpia.
  destruct (in_dec string_dec k CAMPOS_NUMERICOS_CLAVE); [contradiction|].
  destruct (String.eqb_spec k "PROVINCIA"); [contradiction|].
  apply dict_get_fila_de_lector.
Qed.




(** The total of a region is the sum of its group, also when the group
    is empty. *)
Lemma ventas_por_provincia_suma self nombre :
  Forall (limpio B) (datos self) ->
  ventas_por_provincia B self nombre =
  Ok (suma_por "PROVINCIA" "TOTAL_VENTAS" (datos self) (py_upper B nombre)).
Proof.
  intros Hl. unfold ventas_por_provincia.
  rewrite (ventas_totales_agrupado B self Hl). simpl bind.
  unfold dict_get_or. rewrite dict_get_agrupado.
  destruct (hay "PROVINCIA" (datos self) (py_upper B nombre)) eqn:E; [reflexivity|].
  now rewrite suma_por_sin_grupo.
Qed.
End ArchivoFacts.

(** ** The records of a file *)

Section DesdeElArchivo.
Variable B : Builtins.
Local Open Scope float_scope.

Lemma init_filas_cargadas lector :
  exists avisos,
    __init__ B (Existe lector) =
    (avisos, Ok {| datos := map (registro_de B) (filas_cargadas lector) |}).
Proof.
  destruct (init_exacto B lector) as [avisos E]. exists avisos. rewrite E.
  unfold filas_cargadas. now destruct (lectura_completa lector).
Qed.

Lemma registros_limpios filas : Forall (limpio B) (map (registro_de B) filas).
Proof.
  apply Forall_forall. intros f Hf. apply in_map_iff in Hf.
  destruct Hf as (c & <- & _). apply registro_de_limpio.
Qed.
End DesdeElArchivo.

(** ** Loops that may raise *)

Section CualquierRegistro.
Context {A S : Type} (cuerpo : S -> A -> Exc S).

Lemma for_each_Ok (P : A -> Prop) :
  (forall s x, (exists s', cuerpo s x = Ok s') <-> P x) ->
  forall l s, (exists s', for_each l s cuerpo = Ok s') <-> Forall P l.
Proof.
  intros Hc. induction l as [|x l IH]; intros s; simpl.
  - split; [constructor|eauto].
  - split.
    + intros [s' H]. destruct (cuerpo s x) as [s1|e] eqn:E; simpl in H; [|discriminate].
      constructor; [apply (Hc s); eauto|]. apply (IH s1). eauto.
    + intros H. inversion H as [|? ? Hx Hl]; subst.
      apply (Hc s) in Hx. destruct Hx as [s1 ->]. simpl. now apply IH.
Qed.

Lemma for_each_Raise (Q : excepcion -> Prop) :
  (forall s x e, cuerpo s x = Raise e -> Q e) ->
  forall l s e, for_each l s cuerpo = Raise e -> Q e.
Proof.
  intros Hc. induction l as [|x l IH]; intros s e; simpl; [discriminate|].
  destruct (cuerpo s x) as [s1|e1] eqn:E; simpl.
  - apply IH.
  - intros [= <-]. eapply Hc, E.
Qed.
End CualquierRegistro.

Lemma sumar_en_Ok d k v :
  (exists d', sumar_en d k v = Ok d') <-> exists x, v = VNum x.
Proof.
  unfold sumar_en. destruct (defaultdict_item d k) as [actual d1].
  destruct v as [|s|x]; simpl; split; intros [y H]; try discriminate; eauto.
Qed.

Lemma sumar_en_Raise d k v e : sumar_en d k v = Raise e -> e = TypeError.
Proof.
  unfold sumar_en. destruct (defaultdict_item d k) as [actual d1].
  destruct v as [|s|x]; simpl; congruence.
Qed.

(** ** Upper-casing ASCII text *)

Lemma mayuscula_idempotente c :
  AsciiBuiltins.mayuscula (AsciiBuiltins.mayuscula c) = AsciiBuiltins.mayuscula c.
Proof. destruct c as [[] [] [] [] [] [] [] []]; reflexivity. Qed.

Lemma upper_idempotente s :
  AsciiBuiltins.upper (AsciiBuiltins.upper s) = AsciiBuiltins.upper s.
Proof.
  induction s as [|c s IH]; simpl; [reflexivity|].
  now rewrite mayuscula_idempotente, IH.
Qed.

(** ** A region that is [None] *)

Lemma leer_filas_region_None B filas :
  existsb (fun cruda => negb (region_legible cruda)) filas = true ->
  forall previos, leer_filas B (lectura_de filas) previos = Raise AttributeError.
Proof.
  induction filas as [|cruda filas IH]; simpl; [discriminate|].
  intros H previos. rewrite limpiar_fila_de_lector. unfold region_legible in H.
  destruct (dict_get String.eqb cruda "PROVINCIA") as [[s|]|]; simpl in *;
    try reflexivity; now apply IH.
Qed.

(** ** Properties of the loader *)

(** X1. The loop of [leer_csv] writes the region and the four designated
    fields only: in a complete reading the records come one per row, in
    the order of the file, and under every other column a record holds
    what its row held (the text, [None], or nothing); in an incomplete
    reading there is no record. *)
Theorem columnas_de_paso :
  forall (B : Builtins) (lector : lectura),
    exists avisos datos,
      leer_csv B (Existe lector) = (avisos, Ok datos) /\
      if lectura_completa lector
      then Forall2
             (fun cruda fila =>
                forall k, k <> "PROVINCIA" -> ~ In k CAMPOS_NUMERICOS_CLAVE ->
                  dict_get String.eqb fila k =
                  option_map valor_de_texto (dict_get String.eqb cruda k))
             (filas_de lector) datos
      else datos = [].
Proof.
  intros B lector. destruct (leer_csv_exacto B lector) as [avisos E].
  exists avisos. eexists. split; [exact E|].
  destruct (lectura_completa lector); [|reflexivity]. clear E.
  induction (filas_de lector) as [|cruda filas IH]; cbn [map]; constructor;
    [|exact IH].
  intros k. apply dict_get_registro_de_otra.
Qed.

(** X2. The cleaning function returns [+0.0] or a positive float: never a
    NaN, a negative zero or a negative number.  It has no upper bound: a
    text that reads as infinity, or overflows, cleans to [+inf]. *)
Theorem limpiar_cero_o_positivo :
  (forall (B : Builtins) (v : valor),
      exists x, _limpiar_valor_numerico B v = Ok x /\
                (x = 0%float \/ (0 <? x)%float = true)) /\
  (forall repr,
      map (_limpiar_valor_numerico (ascii_builtins repr))
        [VStr "inf"; VStr " +Infinity "; VStr "1e400"; VStr "-inf"; VStr "-1e400";
         VStr "-nan"; VStr "1e-400"] =
      map Ok [infinity; infinity; infinity; 0; 0; 0; 0]%float).
Proof.
  split.
  - intros B v. exists (limpiar_segun_spec B v).
    split; [apply limpiar_valor_numerico_ok|apply limpiar_segun_spec_casos].
  - intros repr. vm_compute. reflexivity.
Qed.

(** ** Properties of the queries *)

(** X3. On loaded records no sum is negative or a NaN: every value of the
    totals by region and of the exports by month, the total of any region
    and the total of the region with the most imports are [>= 0.0]. *)
Theorem sumas_no_negativas :
  forall (B : Builtins) (ruta : archivo),
    exists avisos self totales exportaciones provincia_max total_max,
      __init__ B ruta = (avisos, Ok self) /\
      ventas_totales_por_provincia self = Ok totales /\
      exportaciones_totales_por_mes self = Ok exportaciones /\
      provincia_con_mas_importaciones self = Ok (provincia_max, total_max) /\
      (forall key v, In (key, v) totales -> (0 <=? v)%float = true) /\
      (forall key v, In (key, v) exportaciones -> (0 <=? v)%float = true) /\
      (forall nombre, exists v,
          ventas_por_provincia B self nombre = Ok v /\ (0 <=? v)%float = true) /\
      (0 <=? total_max)%float = true.
Proof.
  intros B ruta. destruct (init_limpio B ruta) as (avisos & self & H & _ & Hl).
  assert (Hmax : exists p x, provincia_con_mas_importaciones self = Ok (p, x) /\
                             (0 <=? x)%float = true).
  { destruct (importaciones_maximo_spec B self Hl) as [Hvacio Hlleno].
    destruct (con_clave "PROVINCIA" (datos self)) as [|f fs] eqn:Ec.
    - exists VNone, 0%float. split; [now apply Hvacio|reflexivity].
    - destruct Hlleno as (p & antes & r & despues & E1 & _); [discriminate|].
      eexists _, _. split; [exact E1|].
      apply (suma_por_no_negativo B); [exact Hl|simpl; auto]. }
  destruct Hmax as (p & x & Hp & Hx).
  exists avisos, self, (agrupado "PROVINCIA" "TOTAL_VENTAS" (datos self) []),
    (agrupado "MES" "EXPORTACIONES" (con_clave "MES" (datos self)) []), p, x.
  split; [exact H|]. split; [exact (ventas_totales_agrupado B self Hl)|].
  split; [exact (exportaciones_agrupado B self Hl)|]. split; [exact Hp|].
  split; [|split; [|split; [|exact Hx]]].
  - intros key v Hin. apply entrada_agrupado in Hin. destruct Hin as (k & _ & _ & ->).
    apply (suma_por_no_negativo B); [exact Hl|simpl; auto].
  - intros key v Hin. apply entrada_agrupado in Hin. destruct Hin as (k & _ & _ & ->).
    apply (suma_por_no_negativo B); [apply con_clave_limpio, Hl|simpl; auto].
  - intros nombre. eexists. split; [apply ventas_por_provincia_suma, Hl|].
    apply (suma_por_no_negativo B); [exact Hl|simpl; auto].
Qed.

(** X4. On loaded records the totals by region have as many entries as
    there are distinct regions among the records. *)
Theorem numero_de_provincias :
  forall (B : Builtins) (ruta : archivo),
    exists avisos self totales,
      __init__ B ruta = (avisos, Ok self) /\
      ventas_totales_por_provincia self = Ok totales /\
      List.length totales =
      List.length
        (nodup string_dec (map (fun fila => texto_de fila "PROVINCIA") (datos self))).
Proof.
  intros B ruta. destruct (init_limpio B ruta) as (avisos & self & H & _ & Hl).
  exists avisos, self, (agrupado "PROVINCIA" "TOTAL_VENTAS" (datos self) []).
  split; [exact H|]. split; [exact (ventas_totales_agrupado B self Hl)|].
  rewrite <- length_dict_keys_agrupado with (campo := "TOTAL_VENTAS").
  unfold dict_keys. now rewrite length_map.
Qed.

(** X5. On loaded records the dicts list their keys in the order in which
    the groups first appear among the records: the regions for the totals,
    the months that are not empty for the exports, the regions that are
    not empty for the percentages. *)
Theorem orden_de_las_claves :
  forall (B : Builtins) (ruta : archivo),
    exists avisos self totales exportaciones porcentajes,
      __init__ B ruta = (avisos, Ok self) /\
      ventas_totales_por_provincia self = Ok totales /\
      exportaciones_totales_por_mes self = Ok exportaciones /\
      porcentaje_ventas_tarifa_cero self = Ok porcentajes /\
      dict_keys totales =
      map VStr (primeras (map (fun fila => texto_de fila "PROVINCIA") (datos self))) /\
      dict_keys exportaciones =
      map VStr (primeras (map (fun fila => texto_de fila "MES")
                            (con_clave "MES" (datos self)))) /\
      dict_keys porcentajes =
      map VStr (primeras (map (fun fila => texto_de fila "PROVINCIA")
                            (con_clave "PROVINCIA" (datos self)))).
Proof.
  intros B ruta. destruct (init_limpio B ruta) as (avisos & self & H & _ & Hl).
  do 5 eexists. split; [exact H|].
  split; [exact (ventas_totales_agrupado B self Hl)|].
  split; [exact (exportaciones_agrupado B self Hl)|].
  split; [exact (porcentaje_agrupado B self Hl)|].
  split; [apply dict_keys_agrupado_primeras|].
  split; [apply dict_keys_agrupado_primeras|].
  unfold dict_keys. rewrite map_map. simpl.
  apply (dict_keys_agrupado_primeras "PROVINCIA" "TOTAL_VENTAS").
Qed.

(** X6. On loaded records no percentage is below zero.  (A percentage is
    a NaN when the two sums of its region are infinite.) *)
Theorem porcentajes_no_negativos :
  (forall (B : Builtins) (ruta : archivo),
      exists avisos self porcentajes,
        __init__ B ruta = (avisos, Ok self) /\
        porcentaje_ventas_tarifa_cero self = Ok porcentajes /\
        forall key v, In (key, v) porcentajes -> (v <? 0)%float = false) /\
  (forall repr, exists self,
      __init__ (ascii_builtins repr)
        (Existe (lectura_de [[("PROVINCIA", Some "LOJA"); ("TOTAL_VENTAS", Some "inf");
                              ("VENTAS_NETAS_TARIFA_0", Some "inf")]])) = ([], Ok self) /\
      porcentaje_ventas_tarifa_cero self = Ok [(VStr "LOJA", nan)]).
Proof.
  split.
  - intros B ruta. destruct (init_limpio B ruta) as (avisos & self & H & _ & Hl).
    do 3 eexists. split; [exact H|]. split; [exact (porcentaje_agrupado B self Hl)|].
    intros key v Hin. apply in_map_iff in Hin. destruct Hin as ([key' t] & E & Hin).
    simpl in E. injection E as -> <-.
    apply entrada_agrupado in Hin. destruct Hin as (k & -> & Hk & ->).
    unfold porcentaje_de.
    destruct (0 <? suma_por "PROVINCIA" "TOTAL_VENTAS" _ k)%float eqn:Et; [|reflexivity].
    apply porcentaje_no_negativo; [|exact Et].
    unfold defaultdict_item. rewrite dict_get_agrupado.
    destruct (hay "PROVINCIA" (con_clave "PROVINCIA" (datos self)) k); simpl.
    + apply (suma_por_no_negativo B); [apply con_clave_limpio, Hl|simpl; auto].
    + exact no_negativo_cero.
  - intros repr. eexists. split; vm_compute; reflexivity.
Qed.

(** ** The queries, read on the file *)



(** X9. [leer_csv] prints nothing exactly when the file exists and its
    reading is complete.  Whenever it prints a notice the analyser holds no
    record, and every query returns its empty result: no total, [0.0] for
    any region, no month, [(None, 0.0)], no percentage. *)
Theorem avisos_y_carga_vacia :
  forall (B : Builtins) (ruta : archivo),
    exists avisos self,
      __init__ B ruta = (avisos, Ok self) /\
      (avisos = [] <->
       exists lector, ruta = Existe lector /\ lectura_completa lector = true) /\
      (avisos <> [] ->
       datos self = [] /\
       ventas_totales_por_provincia self = Ok [] /\
       (forall nombre, ventas_por_provincia B self nombre = Ok 0%float) /\
       exportaciones_totales_por_mes self = Ok [] /\
       provincia_con_mas_importaciones self = Ok (VNone, 0%float) /\
       porcentaje_ventas_tarifa_cero self = Ok []).
Proof.
  intros B [|lector].
  - exists [Advertencia_no_encontrado], {| datos := [] |}.
    split; [reflexivity|]. split.
    + split; [discriminate|]. intros (lector & Hl & _). discriminate.
    + intros _. repeat split.
  - pose proof (leer_filas_exacto B lector []) as Hl. unfold __init__, leer_csv.
    destruct (lectura_completa lector) eqn:Ec.
    + rewrite Hl. do 2 eexists. split; [reflexivity|]. split.
      * split; [eauto|reflexivity].
      * intros Hn. now elim Hn.
    + destruct Hl as [e ->]. do 2 eexists. split; [reflexivity|]. split.
      * split; [discriminate|]. intros (l & [= <-] & Hc). congruence.
      * intros _. repeat split.
Qed.

(** ** The queries on records built by hand *)

(** X10. On records built by hand, as long as their values are [None],
    texts or floats (the values of [valor]; an integer or a boolean, which
    Python adds to a float, is not among them): the totals by region
    return exactly when every record has a PROVINCIA key and a float under
    TOTAL_VENTAS; otherwise they raise [KeyError] (a key is missing) or
    [TypeError] (the total is [None] or a text), and nothing else. *)
Theorem ventas_totales_error :
  forall self : Analizador,
    ((exists totales, ventas_totales_por_provincia self = Ok totales) <->
     Forall (fun fila =>
               dict_get String.eqb fila "PROVINCIA" <> None /\
               exists x, dict_get String.eqb fila "TOTAL_VENTAS" = Some (VNum x))
       (datos self)) /\
    (forall e, ventas_totales_por_provincia self = Raise e ->
               e = KeyError \/ e = TypeError) /\
    (forall fila resto,
        datos self = fila :: resto ->
        dict_get String.eqb fila "PROVINCIA" = None \/
        dict_get String.eqb fila "TOTAL_VENTAS" = None ->
        ventas_totales_por_provincia self = Raise KeyError).
Proof.
  intros self. unfold ventas_totales_por_provincia. split; [|split].
  - apply for_each_Ok. intros d fila. unfold dict_item.
    destruct (dict_get String.eqb fila "PROVINCIA") as [p|]; simpl.
    + destruct (dict_get String.eqb fila "TOTAL_VENTAS") as [v|]; simpl.
      * rewrite sumar_en_Ok. split.
        -- intros [x ->]. split; [discriminate|eauto].
        -- intros [_ [x [= ->]]]. eauto.
      * split; [intros [? ?]; discriminate|intros [_ [x ?]]; discriminate].
    + split; [intros [? ?]; discriminate|intros [? _]; congruence].
  - intros e He.
    refine (for_each_Raise _ (fun e => e = KeyError \/ e = TypeError) _ _ _ _ He).
    intros d fila e'. unfold dict_item.
    destruct (dict_get String.eqb fila "PROVINCIA") as [p|]; simpl;
      [|intros [= <-]; auto].
    destruct (dict_get String.eqb fila "TOTAL_VENTAS") as [v|]; simpl;
      [|intros [= <-]; auto].
    intros H. apply sumar_en_Raise in H. auto.
  - intros fila resto -> H. simpl. unfold dict_item.
    destruct (dict_get String.eqb fila "PROVINCIA") as [p|]; simpl; [|reflexivity].
    destruct H as [H|H]; [discriminate|]. now rewrite H.
Qed.

(** X11. On records built by hand, as long as their values are [None],
    texts or floats (the values of [valor]; an integer or a boolean, which
    Python adds to a float, is not among them): the exports by month never
    raise [KeyError], a record without a MES key, or whose month is [None]
    or empty, being skipped and a missing EXPORTACIONES counting as [0.0].
    They return exactly when every record with a month has no EXPORTACIONES
    or a float under it, and raise [TypeError] when one holds [None] or a
    text there. *)
Theorem exportaciones_error :
  forall self : Analizador,
    ((exists exportaciones, exportaciones_totales_por_mes self = Ok exportaciones) <->
     Forall (fun fila =>
               truthy (dict_get_or String.eqb fila "MES" VNone) = true ->
               dict_get String.eqb fila "EXPORTACIONES" = None \/
               exists x, dict_get String.eqb fila "EXPORTACIONES" = Some (VNum x))
       (datos self)) /\
    (forall e, exportaciones_totales_por_mes self = Raise e -> e = TypeError).
Proof.
  intros self. unfold exportaciones_totales_por_mes. split.
  - apply for_each_Ok. intros d fila. cbv zeta.
    destruct (truthy (dict_get_or String.eqb fila "MES" VNone)).
    + rewrite sumar_en_Ok. unfold dict_get_or.
      destruct (dict_get String.eqb fila "EXPORTACIONES") as [v|].
      * split.
        -- intros [x ->] _. eauto.
        -- intros H. destruct (H eq_refl) as [?|[x [= ->]]]; [discriminate|eauto].
      * split; [auto|eauto].
    + split; [discriminate|eauto].
  - intros e He.
    refine (for_each_Raise _ (fun e => e = TypeError) _ _ _ _ He).
    intros d fila e'. cbv zeta.
    destruct (truthy _); [apply sumar_en_Raise|discriminate].
Qed.

(** ** Properties under a condition *)

(** X12. When the VENTAS_NETAS_TARIFA_0 of every row of the file cleans to
    [0.0] (the column is absent, empty, negative or not a number), every
    percentage is exactly [0.0]. *)
Theorem porcentajes_sin_tarifa_cero :
  forall (B : Builtins) (lector : lectura),
    (forall cruda, In cruda (filas_de lector) ->
        limpiar_segun_spec B (valor_crudo cruda "VENTAS_NETAS_TARIFA_0") = 0%float) ->
    exists avisos self porcentajes,
      __init__ B (Existe lector) = (avisos, Ok self) /\
      porcentaje_ventas_tarifa_cero self = Ok porcentajes /\
      forall key v, In (key, v) porcentajes -> v = 0%float.
Proof.
  intros B lector Hcero. destruct (init_filas_cargadas B lector) as [avisos E].
  pose proof (registros_limpios B (filas_cargadas lector)) as Hl.
  do 3 eexists. split; [exact E|].
  split; [apply (porcentaje_agrupado B), Hl|]. simpl datos.
  intros key v Hin. apply in_map_iff in Hin. destruct Hin as ([key' t] & Ev & Hin).
  simpl in Ev. injection Ev as -> <-.
  apply entrada_agrupado in Hin. destruct Hin as (k & -> & Hk & ->).
  unfold porcentaje_de.
  destruct (0 <? suma_por "PROVINCIA" "TOTAL_VENTAS" _ k)%float eqn:Et; [|reflexivity].
  assert (Hc : fst (defaultdict_item
                      (agrupado "PROVINCIA" "VENTAS_NETAS_TARIFA_0"
                         (con_clave "PROVINCIA"
                            (map (registro_de B) (filas_cargadas lector))) [])
                      (VStr k)) = 0%float).
  { unfold defaultdict_item. rewrite dict_get_agrupado.
    destruct (hay "PROVINCIA" _ k); [|reflexivity]. simpl.
    unfold suma_por. apply fold_add_ceros, Forall_map, Forall_forall.
    intros f Hf. unfold grupo, con_clave in Hf.
    apply filter_In in Hf. destruct Hf as [Hf _].
    apply filter_In in Hf. destruct Hf as [Hf _].
    apply in_map_iff in Hf. destruct Hf as (c & <- & Hc).
    rewrite numero_de_registro_de by (simpl; auto). apply Hcero.
    unfold filas_cargadas in Hc. now destruct (lectura_completa lector). }
  rewrite Hc. now apply porcentaje_de_cero.
Qed.

Lemma porcentajes_sin_tarifa_cero_witness :
  exists repr,
    (forall cruda, In cruda (filas_de (lectura_de MOCK_DATA)) ->
        limpiar_segun_spec (ascii_builtins repr)
          (valor_crudo cruda "VENTAS_NETAS_TARIFA_0") = 0%float) /\
    exists avisos self porcentajes,
      __init__ (ascii_builtins repr) MOCK_FILE = (avisos, Ok self) /\
      porcentaje_ventas_tarifa_cero self = Ok porcentajes /\
      forall key v, In (key, v) porcentajes -> v = 0%float.
Proof.
  exists (fun _ => EmptyString).
  assert (H : forall cruda, In cruda (filas_de (lectura_de MOCK_DATA)) ->
                limpiar_segun_spec (ascii_builtins (fun _ => EmptyString))
                  (valor_crudo cruda "VENTAS_NETAS_TARIFA_0") = 0%float).
  { intros cruda Hin. simpl in Hin.
    repeat (destruct Hin as [<-|Hin]; [reflexivity|]). contradiction. }
  split; [exact H|].
  exact (porcentajes_sin_tarifa_cero _ (lectura_de MOCK_DATA) H).
Defined.

(** X13. When upper-casing an upper-cased text changes nothing, asking
    [ventas_por_provincia] for a key of the totals by region returns the
    value the dict holds under that key. *)
Theorem consulta_de_cada_clave :
  forall B : Builtins,
    (forall s, py_upper B (py_upper B s) = py_upper B s) ->
    forall ruta : archivo,
      exists avisos self totales,
        __init__ B ruta = (avisos, Ok self) /\
        ventas_totales_por_provincia self = Ok totales /\
        forall k v, In (VStr k, v) totales -> ventas_por_provincia B self k = Ok v.
Proof.
  intros B Hidem ruta. destruct (init_limpio B ruta) as (avisos & self & H & _ & Hl).
  do 3 eexists. split; [exact H|].
  split; [exact (ventas_totales_agrupado B self Hl)|].
  intros k v Hin. apply entrada_agrupado in Hin.
  destruct Hin as (k' & [= <-] & Hk & ->).
  rewrite ventas_por_provincia_suma by exact Hl. do 2 f_equal.
  unfold hay in Hk. apply existsb_exists in Hk. destruct Hk as (f & Hf & Ef).
  apply String.eqb_eq in Ef. rewrite Forall_forall in Hl.
  destruct (limpio_provincia B f (Hl f Hf)) as [_ [s Es]].
  rewrite <- Ef, Es. apply Hidem.
Qed.

Lemma consulta_de_cada_clave_witness :
  exists repr,
    (forall s, py_upper (ascii_builtins repr) (py_upper (ascii_builtins repr) s) =
               py_upper (ascii_builtins repr) s) /\
    exists avisos self totales,
      __init__ (ascii_builtins repr) MOCK_FILE = (avisos, Ok self) /\
      ventas_totales_por_provincia self = Ok totales /\
      forall k v, In (VStr k, v) totales ->
                  ventas_por_provincia (ascii_builtins repr) self k = Ok v.
Proof.
  exists (fun _ => EmptyString). split; [exact upper_idempotente|].
  exact (consulta_de_cada_clave (ascii_builtins (fun _ => EmptyString))
           upper_idempotente MOCK_FILE).
Defined.

(** X14. When the reader itself does not fail, one row whose region is
    [None] (a line that stops before the region column) is enough to lose
    the whole file: [None.upper()] raises [AttributeError], the load prints
    it and returns no record, whatever the other rows hold. *)
Theorem region_None_vacia_la_carga :
  forall (B : Builtins) (filas : list fila_cruda),
    existsb (fun cruda => negb (region_legible cruda)) filas = true ->
    leer_csv B (Existe (lectura_de filas)) = ([Error_lectura AttributeError], Ok []).
Proof.
  intros B filas H. unfold leer_csv. now rewrite leer_filas_region_None.
Qed.

Lemma region_None_vacia_la_carga_witness :
  exists repr,
    existsb (fun cruda => negb (region_legible cruda))
      (MOCK_DATA ++ [FILA_CORTA]) = true /\
    leer_csv (ascii_builtins repr) (Existe (lectura_de (MOCK_DATA ++ [FILA_CORTA]))) =
    ([Error_lectura AttributeError], Ok []).
Proof.
  exists (fun _ => EmptyString).
  split; [reflexivity|].
  exact (region_None_vacia_la_carga _ (MOCK_DATA ++ [FILA_CORTA]) eq_refl).
Defined.

(** X15. On loaded records the percentages have the keys of the totals by
    region except the empty region, and the region with the most imports,
    when there is one, is a key of both. *)
Theorem claves_de_las_consultas :
  forall (B : Builtins) (ruta : archivo),
    exists avisos self totales porcentajes provincia_max total_max,
      __init__ B ruta = (avisos, Ok self) /\
      ventas_totales_por_provincia self = Ok totales /\
      porcentaje_ventas_tarifa_cero self = Ok porcentajes /\
      provincia_con_mas_importaciones self = Ok (provincia_max, total_max) /\
      (forall key, In key (dict_keys porcentajes) <->
                   In key (dict_keys totales) /\ key <> VStr "") /\
      (provincia_max = VNone \/
       In provincia_max (dict_keys porcentajes) /\
       In provincia_max (dict_keys totales)).
Proof.
  intros B ruta. destruct (init_limpio B ruta) as (avisos & self & H & _ & Hl).
  destruct (porcentaje_spec B self Hl) as (porcentajes & H1 & _ & H3).
  destruct (dict_keys_agrupado "PROVINCIA" "TOTAL_VENTAS" (datos self)) as [_ Ht].
  assert (Hmax : exists p x,
             provincia_con_mas_importaciones self = Ok (p, x) /\
             (p = VNone \/
              exists k, p = VStr k /\ k <> "" /\ hay "PROVINCIA" (datos self) k = true)).
  { destruct (importaciones_maximo_spec B self Hl) as [Hvacio Hlleno].
    destruct (con_clave "PROVINCIA" (datos self)) as [|f fs] eqn:Ec.
    - exists VNone, 0%float. split; [now apply Hvacio|auto].
    - destruct Hlleno as (p & antes & r & despues & E1 & Hp & E2 & Er & _);
        [discriminate|].
      eexists _, _. split; [exact E1|]. right. exists p.
      split; [reflexivity|]. split; [exact Hp|]. rewrite <- Er. apply hay_In.
      assert (Hr : In r (con_clave "PROVINCIA" (datos self))).
      { rewrite Ec, E2, in_app_iff. simpl. auto. }
      unfold con_clave in Hr. apply filter_In in Hr. tauto. }
  destruct Hmax as (p & x & Hp & Hpk).
  exists avisos, self, (agrupado "PROVINCIA" "TOTAL_VENTAS" (datos self) []),
    porcentajes, p, x.
  split; [exact H|]. split; [exact (ventas_totales_agrupado B self Hl)|].
  split; [exact H1|]. split; [exact Hp|]. split.
  - intros key. rewrite H3, Ht. split.
    + intros (k & -> & Hk & Hh). split; [eauto|]. intros [= ->]. congruence.
    + intros [(k & -> & Hh) Hne]. exists k. split; [reflexivity|].
      split; [|exact Hh]. intros ->. congruence.
  - destruct Hpk as [->|(k & -> & Hk & Hh)]; [auto|]. right. split.
    + apply H3. eauto.
    + apply Ht. eauto.
Qed.
